(** * glue_job_script.py: the CSV-to-Parquet ingest job

    A shallow embedding of [src/health-etl/glue_job_script.py].

    The script is embedded line by line as one monadic program, [job], over
    an explicit world: the clock, the object store, standard output and a
    log of the calls issued to the engine.  What the script calls and the
    repository does not hold (awsglue's argument resolution, Spark's CSV
    reader, [DataFrame.withColumn], the partitioned Parquet writer) is
    modelled from the specification's account of it, completed by the
    documented behaviour of the library call; each such definition is
    marked in its comment.

    Text is held as byte strings.  Letter case is handled for the ASCII
    letters: the model speaks of object keys and column names whose letters
    are ASCII. *)

From stdpp Require Import gmap strings list pretty.
From Stdlib Require Import Ascii ZArith Lia.

(** ** Python strings *)

Module PyStr.

(** [c.lower()] on one character: the letters A..Z move to a..z. *)
Definition ascii_lower (c : ascii) : ascii :=
  let n := nat_of_ascii c in
  if (65 <=? n)%nat && (n <=? 90)%nat then ascii_of_nat (n + 32) else c.

(** [s.lower()] *)
Fixpoint lower (s : string) : string :=
  match s with
  | EmptyString => EmptyString
  | String c s' => String (ascii_lower c) (lower s')
  end.

(** [s.endswith(suffix)] *)
Fixpoint endswith (s suffix : string) : bool :=
  if String.eqb s suffix then true
  else match s with
       | EmptyString => false
       | String _ s' => endswith s' suffix
       end.

(** [s.startswith(prefix)] *)
Fixpoint startswith (s prefix : string) : bool :=
  match prefix, s with
  | EmptyString, _ => true
  | String _ _, EmptyString => false
  | String a p', String b s' => Ascii.eqb a b && startswith s' p'
  end.

(** Truth value of a string in a condition: [if s:] *)
Definition truthy (s : string) : bool :=
  match s with
  | EmptyString => false
  | String _ _ => true
  end.

End PyStr.

(** ** [datetime] and [strftime] *)

Module PyDatetime.

(** The fields of a [datetime.datetime] that the script can observe. *)
Record datetime := mk_datetime {
  year : Z; month : Z; day : Z;
  hour : Z; minute : Z; second : Z
}.

(** The ranges Python enforces on the date fields of a [datetime]
    (MINYEAR = 1, MAXYEAR = 9999). *)
Definition valid (t : datetime) : Prop :=
  (1 <= year t <= 9999)%Z /\ (1 <= month t <= 12)%Z /\
  (1 <= day t <= 31)%Z.

Definition digit (n : Z) : ascii := ascii_of_N (Z.to_N (48 + n mod 10)).

(** A field below 100 zero-padded to two digits, as [%m], [%d], [%H],
    [%M] and [%S] print it, and the four digits of a number from 1000 to
    9999. *)
Definition pad2 (n : Z) : string :=
  String (digit (n / 10)) (String (digit n) EmptyString).

Definition pad4 (n : Z) : string :=
  String (digit (n / 1000)) (String (digit (n / 100)) (pad2 n)).

(** The year as [%Y] prints it on the platform the job runs on (Linux,
    where [strftime] is the C library's): in decimal and without padding,
    so a year below 1000 has fewer than four digits.  Given for the years
    a [datetime] can hold. *)
Definition year_text (n : Z) : string :=
  if (n <? 10)%Z then String (digit n) EmptyString
  else if (n <? 100)%Z then pad2 n
  else if (n <? 1000)%Z then String (digit (n / 100)) (pad2 n)
  else pad4 n.

(** [t.strftime(fmt)] for the directives [%Y %m %d %H %M %S %%]; any other
    character is copied. *)
Fixpoint strftime (fmt : string) (t : datetime) : string :=
  match fmt with
  | EmptyString => EmptyString
  | String "%" (String "Y" r) => year_text (year t) +:+ strftime r t
  | String "%" (String "m" r) => pad2 (month t) +:+ strftime r t
  | String "%" (String "d" r) => pad2 (day t) +:+ strftime r t
  | String "%" (String "H" r) => pad2 (hour t) +:+ strftime r t
  | String "%" (String "M" r) => pad2 (minute t) +:+ strftime r t
  | String "%" (String "S" r) => pad2 (second t) +:+ strftime r t
  | String "%" (String "%" r) => String "%" (strftime r t)
  | String c r => String c (strftime r t)
  end.

(** Reading a date back from its [YYYY-MM-DD] text. *)
Definition digit_val (c : ascii) : option Z :=
  let n := Z.of_N (N_of_ascii c) in
  if (48 <=? n)%Z && (n <=? 57)%Z then Some (n - 48)%Z else None.

Definition parse_Ymd (s : string) : option (Z * Z * Z) :=
  match s with
  | String y3 (String y2 (String y1 (String y0 (String "-"
      (String m1 (String m0 (String "-"
        (String d1 (String d0 EmptyString))))))))) =>
      y3 ← digit_val y3; y2 ← digit_val y2; y1 ← digit_val y1;
      y0 ← digit_val y0; m1 ← digit_val m1; m0 ← digit_val m0;
      d1 ← digit_val d1; d0 ← digit_val d0;
      Some (1000 * y3 + 100 * y2 + 10 * y1 + y0, 10 * m1 + m0,
            10 * d1 + d0)%Z
  | _ => None
  end.

End PyDatetime.

(** ** Exceptions, outcomes and the world the job runs in *)

Inductive Exception :=
| GlueArgumentError (missing : string)
| KeyError (key : string)
| IllegalArgumentException (msg : string)
| AnalysisException (msg : string)
| AccessDenied (uri : string).

(** How a computation ends: it returns, it leaves through [sys.exit], or an
    exception escapes. *)
Inductive Outcome (A : Type) :=
| Returned (a : A)
| Exited (code : Z)
| Raised (e : Exception).
Arguments Returned {A} a.
Arguments Exited {A} code.
Arguments Raised {A} e.

(** A text object as the CSV reader sees it: its first line split into
    fields, and the fields of each following line. *)
Record CsvFile := mk_csv {
  first_line : list string;
  more_lines : list (list string)
}.

Inductive DataType := IntegerType | DoubleType | BooleanType | StringType.

Record StructField := mk_field {
  field_name : string;
  field_type : DataType
}.

Definition Row := list string.

(** One Parquet part file of a partitioned dataset: the partition directory
    it lies in ([ingest_date=2026-11-03] is [[("ingest_date",
    "2026-11-03")]]), its columns and its rows.  The partition columns are
    held by the directory name only. *)
Record PartFile := mk_part {
  pf_partition : list (string * string);
  pf_schema : list StructField;
  pf_rows : list Row
}.

(** The calls the job issues to the engine's reader and writer, failed
    ones included. *)
Inductive Event :=
| EvRead (path : string)
| EvWrite (path : string).

(** The world: the UTC wall clock at each instant and the current instant;
    whether a Spark context is running; the text objects of the store, by
    URI; the part files of each Parquet dataset, by the dataset's path and
    in the order they were added (file names are unique to a write, so a
    dataset is the list of its files); the object URIs that refuse a read
    and the dataset paths that refuse a write; standard output; the engine
    calls issued so far. *)
Record World := mk_world {
  utc_clock : nat -> PyDatetime.datetime;
  instant : nat;
  spark_context : bool;
  objects : gmap string CsvFile;
  datasets : gmap string (list PartFile);
  unreadable : gset string;
  unwritable : gset string;
  stdout : list string;
  calls : list Event
}.

(** Updates of single fields of the world. *)
Definition emit (line : string) (w : World) : World :=
  mk_world (utc_clock w) (instant w) (spark_context w) (objects w)
    (datasets w) (unreadable w) (unwritable w) (stdout w ++ [line]) (calls w).

Definition start_spark (w : World) : World :=
  mk_world (utc_clock w) (instant w) true (objects w) (datasets w)
    (unreadable w) (unwritable w) (stdout w) (calls w).

(** A call to the engine is logged, and time passes while it runs. *)
Definition engine_call (e : Event) (w : World) : World :=
  mk_world (utc_clock w) (S (instant w)) (spark_context w) (objects w)
    (datasets w) (unreadable w) (unwritable w) (stdout w) (calls w ++ [e]).

Definition put_dataset (path : string) (files : list PartFile) (w : World)
    : World :=
  mk_world (utc_clock w) (instant w) (spark_context w) (objects w)
    (<[path := files]> (datasets w)) (unreadable w) (unwritable w)
    (stdout w) (calls w).

(** The job monad: state passing over the world, with early exit and
    exceptions. *)
Definition M (A : Type) : Type := World -> Outcome A * World.

Definition ret {A} (a : A) : M A := fun w => (Returned a, w).

Definition bind {A B} (m : M A) (k : A -> M B) : M B :=
  fun w =>
    match m w with
    | (Returned a, w') => k a w'
    | (Exited c, w') => (Exited c, w')
    | (Raised e, w') => (Raised e, w')
    end.

Definition raise {A} (e : Exception) : M A := fun w => (Raised e, w).

Declare Scope job_scope.
Delimit Scope job_scope with job.
Notation "x <- m ;; k" := (bind m (fun x => k))
  (at level 100, m at next level, right associativity) : job_scope.
Notation "m ;; k" := (bind m (fun _ => k))
  (at level 100, right associativity) : job_scope.

(** The status the process ends with: 0 when the script runs to its end,
    the argument of [sys.exit], and 1 when an exception escapes. *)
Definition exit_status {A} (o : Outcome A) : Z :=
  match o with
  | Returned _ => 0
  | Exited c => c
  | Raised _ => 1
  end.

(** [print(line)] *)
Definition print (line : string) : M unit :=
  fun w => (Returned tt, emit line w).

(** [sys.exit(code)] *)
Definition sys_exit {A} (code : Z) : M A := fun w => (Exited code, w).

(** [dt.datetime.now(dt.timezone.utc)] *)
Definition datetime_now_utc : M PyDatetime.datetime :=
  fun w => (Returned (utc_clock w (instant w)), w).

(** [d[key]] and [d.get(key, default)] on a dict with string keys. *)
Definition getitem (d : gmap string string) (key : string) : M string :=
  match d !! key with
  | Some v => ret v
  | None => raise (KeyError key)
  end.

Definition dict_get (d : gmap string string) (key default_ : string) : string :=
  default default_ (d !! key).

(** ** awsglue *)

Module Glue.

(** Modelled from the spec: the external argument-resolution mechanism,
    [awsglue.utils.getResolvedOptions(argv, options)], which is not part of
    the repository.  A required parameter that is missing is surfaced at
    resolution time and the job does not proceed; as awsglue documents the
    call, every name of [options] is required.  [sys.argv] is represented
    by the job parameters it carries, a finite map from parameter name to
    value; the result holds the requested parameters. *)
Definition getResolvedOptions (argv : gmap string string)
    (options : list string) : M (gmap string string) :=
  match List.filter (fun o => bool_decide (argv !! o = None)) options with
  | [] => ret (filter (fun kv => kv.1 ∈ options) argv)
  | o :: _ => raise (GlueArgumentError o)
  end.

Inductive SparkContext := the_SparkContext.
Inductive SparkSession := the_SparkSession.
Record GlueContext := mk_GlueContext { spark_session : SparkSession }.

(** Modelled from the spec: the engine handle, [SparkContext.getOrCreate()]
    and [GlueContext(sc)], created at the start of the job. *)
Definition SparkContext_getOrCreate : M SparkContext :=
  fun w => (Returned the_SparkContext, start_spark w).

Definition new_GlueContext (sc : SparkContext) : M GlueContext :=
  ret (mk_GlueContext the_SparkSession).

End Glue.

(** ** The Spark engine

    Modelled from the spec: the distributed compute engine, none of which
    is part of the repository.  Each operation follows section 4.1 of the
    specification and, where that leaves the behaviour open, the
    documentation of the PySpark call of the same name under Spark's
    default configuration ([spark.sql.caseSensitive] is false, the CSV
    reader is in its permissive mode). *)

Module Spark.

Record DataFrame := mk_df {
  schema : list StructField;
  partitions : list (list Row)
}.

(** [df.columns] and [df.collect()] *)
Definition columns (df : DataFrame) : list string :=
  field_name <$> schema df.

Definition collect (df : DataFrame) : list Row :=
  List.concat (partitions df).

(** Column names are resolved without regard to letter case. *)
Definition resolver (a b : string) : bool :=
  String.eqb (PyStr.lower a) (PyStr.lower b).

(** *** Reading CSV *)

(** [spark.read], [.option(key, value)] *)
Record DataFrameReader := mk_reader { reader_options : gmap string string }.

Definition read (spark : Glue.SparkSession) : DataFrameReader :=
  mk_reader ∅.

Definition option_ (key value : string) (r : DataFrameReader)
    : DataFrameReader :=
  mk_reader (<[PyStr.lower key := value]> (reader_options r)).

Definition flag (r : DataFrameReader) (key : string) : bool :=
  match reader_options r !! PyStr.lower key with
  | Some v => String.eqb (PyStr.lower v) "true"
  | None => false
  end.

(** A path names an object, or a directory of objects. *)
Definition as_dir (path : string) : string :=
  if PyStr.endswith path "/" then path else path +:+ "/".

Definition under (path uri : string) : bool :=
  PyStr.startswith uri (as_dir path).

(** Modelled from the spec: the objects at a source location, which is a
    single object or all the objects under a prefix.  A path that names
    an object stands for that object alone; any other path stands for the
    objects under it. *)
Definition list_objects (w : World) (path : string)
    : list (string * CsvFile) :=
  match objects w !! path with
  | Some f => [(path, f)]
  | None => List.filter (fun o => under path o.1) (map_to_list (objects w))
  end.

(** Modelled from the spec: schema inference, by which column types are
    inferred from content (numeric, boolean-like or text).  Empty cells
    are nulls and fit every type. *)
Definition is_digit (c : ascii) : bool :=
  let n := nat_of_ascii c in (48 <=? n)%nat && (n <=? 57)%nat.

Fixpoint all_digits (s : string) : bool :=
  match s with
  | EmptyString => true
  | String c s' => is_digit c && all_digits s'
  end.

Definition unsigned (s : string) : string :=
  match s with
  | String "-" s' => s'
  | String "+" s' => s'
  | _ => s
  end.

Definition is_int (s : string) : bool :=
  PyStr.truthy (unsigned s) && all_digits (unsigned s).

Fixpoint is_decimal_from (s : string) : bool :=
  match s with
  | EmptyString => true
  | String "." s' => PyStr.truthy s' && all_digits s'
  | String c s' => is_digit c && is_decimal_from s'
  end.

Definition is_decimal (s : string) : bool :=
  match unsigned s with
  | String c s' => is_digit c && is_decimal_from s'
  | EmptyString => false
  end.

Definition is_bool (s : string) : bool :=
  String.eqb (PyStr.lower s) "true" || String.eqb (PyStr.lower s) "false".

Definition infer_type (cells : list string) : DataType :=
  match List.filter PyStr.truthy cells with
  | [] => StringType
  | vs =>
      if forallb is_int vs then IntegerType
      else if forallb is_decimal vs then DoubleType
      else if forallb is_bool vs then BooleanType
      else StringType
  end.

(** A record is cut or padded with nulls to the width of the schema. *)
Definition fit (n : nat) (r : Row) : Row := take n (r ++ replicate n "").

Definition default_names (n : nat) : list string :=
  (fun i => "_c" +:+ pretty i) <$> seq 0 n.

(** Modelled from the spec: the header row names the columns.  As Spark's
    CSV reader does, an empty name becomes [_c<position>], and a name that
    occurs more than once (letter case aside) gets its position
    appended. *)
Definition make_safe_header (line : list string) : list string :=
  let lowered := PyStr.lower <$> line in
  imap (fun i name =>
          if negb (PyStr.truthy name) then "_c" +:+ pretty i
          else if (1 <? length (List.filter (String.eqb (PyStr.lower name))
                                  lowered))%nat
               then name +:+ pretty i
               else name) line.

(** Modelled from the spec: the read step, [reader.csv(path)].  It loads the
    records of every object at the location and fails when the location
    matches no object or an object cannot be read.  The column names come
    from the first object: from its first line when the [header] option is
    set, and then the first line of every object is left out of the data.
    With [inferSchema] the column types follow the cells, otherwise every
    column is a string.  Each object becomes one partition. *)
Definition csv (r : DataFrameReader) (path : string) : M DataFrame :=
  fun w =>
    let w' := engine_call (EvRead path) w in
    match list_objects w path with
    | [] => (Raised (AnalysisException ("Path does not exist: " +:+ path)), w')
    | ((uri0, f0) :: _) as found =>
        match List.filter (fun o => bool_decide (o.1 ∈ unreadable w))
                found with
        | (uri, _) :: _ => (Raised (AccessDenied uri), w')
        | [] =>
            let names :=
              if flag r "header" then make_safe_header (first_line f0)
              else default_names (length (first_line f0)) in
            let width := length names in
            let data (f : CsvFile) : list Row :=
              fit width <$>
                (if flag r "header" then more_lines f
                 else first_line f :: more_lines f) in
            let parts := (fun o => data o.2) <$> found in
            let column (i : nat) : list string :=
              (fun row => nth i row "") <$> List.concat parts in
            let types :=
              (fun i => if flag r "inferSchema" then infer_type (column i)
                        else StringType) <$> seq 0 width in
            (Returned (mk_df (zip_with mk_field names types) parts), w')
        end
    end.

(** *** Columns *)

(** [F.lit(v)] for a string [v]: a column that holds [v] in every row. *)
Inductive Column := lit (v : string).

(** The cells of a row under the columns marked in [hit] become [v]. *)
Fixpoint put (hit : list bool) (v : string) (r : Row) : Row :=
  match hit, r with
  | h :: hit', c :: r' => (if h then v else c) :: put hit' v r'
  | _, _ => []
  end.

(** Modelled from the spec: the transform step, [df.withColumn(colName,
    col)], which gives every row the value of the new column.  As PySpark
    documents the call it returns a frame "by adding a column or replacing
    the existing column that has the same name": every column whose name
    resolves to [colName] is replaced, in place, by the new column under
    the name [colName]; when there is none the new column is added after
    the last one. *)
Definition withColumn (colName : string) (col : Column) (df : DataFrame)
    : DataFrame :=
  let 'lit v := col in
  let hit := (fun f => resolver (field_name f) colName) <$> schema df in
  if existsb id hit then
    mk_df
      ((fun f => if resolver (field_name f) colName
                 then mk_field colName StringType else f) <$> schema df)
      ((fun task : list Row => put hit v <$> task) <$> partitions df)
  else
    mk_df (schema df ++ [mk_field colName StringType])
      ((fun task : list Row => (fun r => r ++ [v]) <$> task)
         <$> partitions df).

(** The rows at the positions [i], [i + n], [i + 2n], ... *)
Fixpoint every (n i : nat) (k : nat) (rows : list Row) : list Row :=
  match rows with
  | [] => []
  | r :: rows' =>
      if (k mod n =? i)%nat then r :: every n i (S k) rows'
      else every n i (S k) rows'
  end.

(** Modelled from the spec: [df.repartition(numPartitions)], which with 1
    coalesces the batch into a single partition, hence a single output
    file; in general the rows are dealt out to [numPartitions] partitions
    in turn. *)
Definition repartition (numPartitions : nat) (df : DataFrame) : DataFrame :=
  mk_df (schema df)
    ((fun i => every numPartitions i 0 (collect df)) <$> seq 0 numPartitions).

(** *** Writing Parquet *)

Inductive SaveMode := Append | Overwrite | ErrorIfExists | Ignore.

Record DataFrameWriter := mk_writer {
  writer_df : DataFrame;
  writer_mode : SaveMode;
  writer_partition_by : list string
}.

(** [df.write]: the save mode starts as "error if exists". *)
Definition write (df : DataFrame) : DataFrameWriter :=
  mk_writer df ErrorIfExists [].

(** [writer.mode(saveMode)] *)
Definition mode (saveMode : string) (wr : DataFrameWriter)
    : M DataFrameWriter :=
  let set m := ret (mk_writer (writer_df wr) m (writer_partition_by wr)) in
  let s := PyStr.lower saveMode in
  if String.eqb s "append" then set Append
  else if String.eqb s "overwrite" then set Overwrite
  else if String.eqb s "ignore" then set Ignore
  else if String.eqb s "error" || String.eqb s "errorifexists"
          || String.eqb s "default" then set ErrorIfExists
  else raise (IllegalArgumentException ("Unknown save mode: " +:+ saveMode)).

(** [writer.partitionBy(cols)], with the column names as a list *)
Definition partitionBy (cols : list string) (wr : DataFrameWriter)
    : DataFrameWriter :=
  mk_writer (writer_df wr) (writer_mode wr) cols.

(** The cell of a row under the first column that resolves to [name]. *)
Fixpoint cell (sch : list StructField) (r : Row) (name : string)
    : option string :=
  match sch, r with
  | f :: sch', c :: r' =>
      if resolver (field_name f) name then Some c else cell sch' r' name
  | _, _ => None
  end.

(** The cells of a row under the columns marked in [keep]. *)
Fixpoint select (keep : list bool) (r : Row) : Row :=
  match keep, r with
  | k :: keep', c :: r' =>
      if k then c :: select keep' r' else select keep' r'
  | _, _ => []
  end.

Definition is_partition_column (cols : list string) (f : StructField)
    : bool :=
  existsb (resolver (field_name f)) cols.

Definition partition_key (sch : list StructField) (cols : list string)
    (r : Row) : list string :=
  (fun c => default "" (cell sch r c)) <$> cols.

(** Modelled from the spec: the partition-by-value layout.  Every
    partition of the frame writes one file into each partition directory
    it has rows for; a file holds the columns that are not partition
    columns. *)
Definition part_files (df : DataFrame) (cols : list string)
    : list PartFile :=
  let sch := schema df in
  let dirs := omap (fun c => field_name <$>
                      List.find (fun f => resolver (field_name f) c) sch)
                cols in
  let keep := (fun f => negb (is_partition_column cols f)) <$> sch in
  task ← partitions df;
  key ← remove_dups (partition_key sch cols <$> task);
  [mk_part (zip dirs key)
     (List.filter (fun f => negb (is_partition_column cols f)) sch)
     (select keep <$>
        List.filter (fun r => bool_decide (partition_key sch cols r = key))
          task)].

(** Modelled from the spec: the write step, [writer.parquet(path)].  The
    write is refused when two columns share a name, when a partition
    column is not a column of the frame, when every column is a partition
    column, and when the destination cannot be written.  Otherwise the
    save mode decides what becomes of a dataset that is already at [path]:
    [Append] keeps its files and adds the new ones alongside, [Overwrite]
    replaces them, [Ignore] leaves the dataset as it is, [ErrorIfExists]
    fails. *)
Definition parquet (wr : DataFrameWriter) (path : string) : M unit :=
  fun w =>
    let df := writer_df wr in
    let cols := writer_partition_by wr in
    let w' := engine_call (EvWrite path) w in
    let store files := put_dataset path files w' in
    if negb (bool_decide (NoDup (PyStr.lower <$> columns df))) then
      (Raised (AnalysisException "Found duplicate column(s)"), w')
    else if negb (forallb
                    (fun c => existsb (fun f => resolver (field_name f) c)
                                (schema df)) cols) then
      (Raised (AnalysisException "Partition column not found"), w')
    else if negb (bool_decide (cols = []))
            && forallb (is_partition_column cols) (schema df) then
      (Raised (AnalysisException
                 "Cannot use all columns for partition columns"), w')
    else if bool_decide (path ∈ unwritable w) then
      (Raised (AccessDenied path), w')
    else
      match datasets w !! path, writer_mode wr with
      | Some old, Append => (Returned tt, store (old ++ part_files df cols))
      | Some old, Ignore => (Returned tt, w')
      | Some old, ErrorIfExists =>
          (Raised (AnalysisException ("Path already exists: " +:+ path)), w')
      | Some old, Overwrite => (Returned tt, store (part_files df cols))
      | None, _ => (Returned tt, store (part_files df cols))
      end.

End Spark.

(** ** The job: glue_job_script.py *)

Import Glue Spark.
Local Open Scope job_scope.

(** Lines 25 to 55, with the five variables of lines 19 to 23 bound. *)
Definition job_body
    (RAW_BUCKET RAW_PREFIX CURATED_BUCKET CURATED_PREFIX OBJ_KEY : string)
    : M unit :=
  (* Partition by UTC ingest_date *)
  now <- datetime_now_utc ;;
  let ingest_date := PyDatetime.strftime "%Y-%m-%d" now in

  sc <- SparkContext_getOrCreate ;;
  glue_ctx <- new_GlueContext sc ;;
  let spark := spark_session glue_ctx in

  (* Guard: only process CSVs *)
  (if PyStr.truthy OBJ_KEY
      && negb (PyStr.endswith (PyStr.lower OBJ_KEY) ".csv")
   then
     print ("Non-CSV detected (" +:+ OBJ_KEY +:+ "); skipping.") ;;
     sys_exit 0
   else ret tt) ;;

  let src_path :=
    if PyStr.truthy OBJ_KEY then "s3://" +:+ RAW_BUCKET +:+ "/" +:+ OBJ_KEY
    else "s3://" +:+ RAW_BUCKET +:+ "/" +:+ RAW_PREFIX in

  df <- csv (option_ "inferSchema" "true" (option_ "header" "true"
               (read spark))) src_path ;;

  let df2 := withColumn "ingest_date" (lit ingest_date) df in

  let out_path := "s3://" +:+ CURATED_BUCKET +:+ "/" +:+ CURATED_PREFIX in

  wr <- mode "append" (write (repartition 1 df2)) ;;
  parquet (partitionBy ["ingest_date"] wr) out_path ;;

  print ("Wrote Parquet to " +:+ out_path +:+ " partition=" +:+ ingest_date).

(** The whole script: lines 13 to 23, then the body. *)
Definition job (argv : gmap string string) : M unit :=
  args <- getResolvedOptions argv
            ["RAW_BUCKET"; "RAW_PREFIX";
             "CURATED_BUCKET"; "CURATED_PREFIX";
             "S3_OBJECT_KEY"] ;;

  RAW_BUCKET <- getitem args "RAW_BUCKET" ;;
  RAW_PREFIX <- getitem args "RAW_PREFIX" ;;
  CURATED_BUCKET <- getitem args "CURATED_BUCKET" ;;
  CURATED_PREFIX <- getitem args "CURATED_PREFIX" ;;
  let OBJ_KEY := dict_get args "S3_OBJECT_KEY" "" in

  job_body RAW_BUCKET RAW_PREFIX CURATED_BUCKET CURATED_PREFIX OBJ_KEY.

(** ** Vocabulary of the statements *)

(** The spellings of the suffix [.csv] in every letter case. *)
Definition csv_suffixes : list string :=
  [".csv"; ".csV"; ".cSv"; ".cSV"; ".Csv"; ".CsV"; ".CSv"; ".CSV"].

(** The key ends with [.csv], compared without regard to letter case. *)
Definition ends_with_csv (key : string) : Prop :=
  exists stem ext, key = stem +:+ ext /\ ext ∈ csv_suffixes.

(** The invocation carries these values for the five job parameters. *)
Definition supplied (argv : gmap string string)
    (raw_bucket raw_prefix curated_bucket curated_prefix object_key : string)
    : Prop :=
  argv !! "RAW_BUCKET" = Some raw_bucket /\
  argv !! "RAW_PREFIX" = Some raw_prefix /\
  argv !! "CURATED_BUCKET" = Some curated_bucket /\
  argv !! "CURATED_PREFIX" = Some curated_prefix /\
  argv !! "S3_OBJECT_KEY" = Some object_key.

(** The UTC date text of the clock at the current instant of a world. *)
Definition utc_date (w : World) : string :=
  PyDatetime.strftime "%Y-%m-%d" (utc_clock w (instant w)).

(** The message of the skip path. *)
Definition skip_message (key : string) : string :=
  "Non-CSV detected (" +:+ key +:+ "); skipping.".

(** The reader of lines 39 to 41, the paths of lines 37 and 46, the test of
    line 33, the frame of line 44 and the message of line 55. *)
Definition reader : DataFrameReader :=
  option_ "inferSchema" "true" (option_ "header" "true"
    (read the_SparkSession)).

Definition source_path (raw_bucket raw_prefix object_key : string) : string :=
  if PyStr.truthy object_key
  then "s3://" +:+ raw_bucket +:+ "/" +:+ object_key
  else "s3://" +:+ raw_bucket +:+ "/" +:+ raw_prefix.

Definition dest_path (curated_bucket curated_prefix : string) : string :=
  "s3://" +:+ curated_bucket +:+ "/" +:+ curated_prefix.

Definition skips (object_key : string) : bool :=
  PyStr.truthy object_key
  && negb (PyStr.endswith (PyStr.lower object_key) ".csv").

Definition stamped (date : string) (df : DataFrame) : DataFrame :=
  withColumn "ingest_date" (lit date) df.

Definition success_message (out date : string) : string :=
  "Wrote Parquet to " +:+ out +:+ " partition=" +:+ date.

(** The writer that line 53 runs. *)
Definition writer (date : string) (df : DataFrame) : DataFrameWriter :=
  mk_writer (repartition 1 (stamped date df)) Append ["ingest_date"].

(** Every row of a frame has one cell for each column. *)
Definition well_formed (df : DataFrame) : Prop :=
  Forall (Forall (fun r : Row => length r = length (schema df)))
    (partitions df).

(** The column is named [ingest_date], letter case aside. *)
Definition named_ingest_date (f : StructField) : bool :=
  resolver (field_name f) "ingest_date".

(** The new column, and what [withColumn] makes of a column of the frame. *)
Definition ingest_date_field : StructField :=
  mk_field "ingest_date" StringType.

Definition stamp_field (f : StructField) : StructField :=
  if named_ingest_date f then ingest_date_field else f.

(** The columns of a frame that are not named [ingest_date], and the cells
    of a row under them. *)
Definition other_columns (df : DataFrame) : list StructField :=
  List.filter (fun f => negb (named_ingest_date f)) (schema df).

Definition other_cells (df : DataFrame) (r : Row) : Row :=
  select ((fun f => negb (named_ingest_date f)) <$> schema df) r.

(** The part files that line 48 to 53 hand to the store for the frame [df]
    that line 39 read. *)
Definition run_output (date : string) (df : DataFrame) : list PartFile :=
  part_files (repartition 1 (stamped date df)) ["ingest_date"].

(** A row of a part file as a record: each column name with its cell, the
    partition columns included. *)
Definition record_of (f : PartFile) (r : Row) : list (string * string) :=
  zip (field_name <$> pf_schema f) r ++ pf_partition f.

(** A sample invocation and a sample world.  The clock passes midnight
    while the first engine call runs. *)
Definition sample_argv (object_key : string) : gmap string string :=
  list_to_map
    [("RAW_BUCKET", "raw"); ("RAW_PREFIX", "in/");
     ("CURATED_BUCKET", "curated"); ("CURATED_PREFIX", "out/");
     ("S3_OBJECT_KEY", object_key)].

Definition sample_clock (n : nat) : PyDatetime.datetime :=
  if (n <? 1)%nat then PyDatetime.mk_datetime 2026 11 3 23 59 58
  else PyDatetime.mk_datetime 2026 11 4 0 0 7.

Definition sample_objects : gmap string CsvFile :=
  list_to_map
    [("s3://raw/in/a.csv",
      mk_csv ["id"; "name"] [["1"; "ann"]; ["2"; "bob"]]);
     ("s3://raw/drop/file.CSV",
      mk_csv ["id"; "ingest_date"]
        [["7"; "2020-01-01"]; ["8"; "2020-01-02"]]);
     ("s3://raw/drop/file.json", mk_csv ["{}"] [])].

Definition sample_world : World :=
  mk_world sample_clock 0 false sample_objects ∅ ∅ ∅ [] [].

(** The sample world after an earlier run of the same day has left a part
    file at the destination. *)
Definition earlier_file : PartFile :=
  mk_part [("ingest_date", "2026-11-03")]
    [mk_field "id" IntegerType; mk_field "name" StringType]
    [["0"; "zoe"]].

Definition sample_world_with_data : World :=
  mk_world sample_clock 0 false sample_objects
    {[ "s3://curated/out/" := [earlier_file] ]} ∅ ∅ [] [].

(** A world whose clock stays within one day. *)
Definition steady_clock (n : nat) : PyDatetime.datetime :=
  PyDatetime.mk_datetime 2026 11 3 10 0 (Z.of_nat n).

Definition steady_world : World :=
  mk_world steady_clock 0 false sample_objects ∅ ∅ ∅ [] [].

(** The header line the reader takes the column names from: the first
    line of the first object at the path. *)
Definition source_header (w : World) (path : string) : list string :=
  match list_objects w path with
  | (_, f) :: _ => first_line f
  | [] => []
  end.

(** The columns of a part file, those held by its directory included. *)
Definition output_columns (f : PartFile) : list string :=
  (field_name <$> pf_schema f) ++ (fst <$> pf_partition f).

(** The frame the reader makes of the object [drop/file.CSV]. *)
Definition sample_frame : DataFrame :=
  mk_df [mk_field "id" IntegerType; mk_field "ingest_date" StringType]
    [[["7"; "2020-01-01"]; ["8"; "2020-01-02"]]].

(** The sample world with a destination that refuses the write. *)
Definition sample_world_read_only : World :=
  mk_world sample_clock 0 false sample_objects ∅ ∅
    {[ "s3://curated/out/" ]} [] [].

(** A world whose only source object has the one column [ingest_date]. *)
Definition sample_world_date_only : World :=
  mk_world sample_clock 0 false
    {[ "s3://raw/in/d.csv" := mk_csv ["ingest_date"] [["2020-01-01"]] ]}
    ∅ ∅ ∅ [] [].

(** Dates in the order of the calendar. *)
Definition compare_dates (a b : PyDatetime.datetime) : comparison :=
  match Z.compare (PyDatetime.year a) (PyDatetime.year b) with
  | Eq =>
      match Z.compare (PyDatetime.month a) (PyDatetime.month b) with
      | Eq => Z.compare (PyDatetime.day a) (PyDatetime.day b)
      | c => c
      end
  | c => c
  end.

(** ** Strings *)

Section Strings.

Import PyStr.

Lemma append_cons (c : ascii) (s t : string) :
  String c s +:+ t = String c (s +:+ t).
Proof. reflexivity. Qed.

Lemma append_nil_l (s : string) : "" +:+ s = s.
Proof. reflexivity. Qed.

Lemma append_nil_r (s : string) : s +:+ "" = s.
Proof.
  induction s as [|c s IH]; [done |]. by rewrite append_cons, IH.
Qed.

Lemma lower_app (a b : string) : lower (a +:+ b) = lower a +:+ lower b.
Proof.
  induction a as [|x a IH]; [done |].
  rewrite append_cons. simpl. by rewrite append_cons, IH.
Qed.

(** A split of [lower s] comes from a split of [s]. *)
Lemma lower_split (s a b : string) :
  lower s = a +:+ b ->
  exists p e, s = p +:+ e /\ lower p = a /\ lower e = b.
Proof.
  revert s. induction a as [|x a IH]; intros s H.
  - exists "", s. auto.
  - destruct s as [|c s]; [discriminate |].
    rewrite append_cons in H. simpl in H.
    injection H as Hc Hs. destruct (IH _ Hs) as (p & e & -> & <- & <-).
    exists (String c p), e. rewrite append_cons. simpl. by rewrite Hc.
Qed.

Lemma endswith_unfold (s suffix : string) :
  endswith s suffix =
  if String.eqb s suffix then true
  else match s with
       | EmptyString => false
       | String _ s' => endswith s' suffix
       end.
Proof. by destruct s. Qed.

Lemma endswith_iff (s suffix : string) :
  endswith s suffix = true <-> exists p, s = p +:+ suffix.
Proof.
  split.
  - induction s as [|c s IH]; rewrite endswith_unfold.
    + destruct (String.eqb_spec "" suffix) as [<- | _]; [| discriminate].
      intros _. by exists "".
    + destruct (String.eqb_spec (String c s) suffix) as [<- | _].
      * intros _. by exists "".
      * intros H. destruct (IH H) as [p ->]. by exists (String c p).
  - intros [p ->]. induction p as [|c p IH]; rewrite endswith_unfold.
    + by rewrite append_nil_l, String.eqb_refl.
    + destruct (String.eqb_spec (String c p +:+ suffix) suffix); [done |].
      exact IH.
Qed.

Lemma lower_dot c : ascii_lower c = "."%char -> c = "."%char.
Proof.
  destruct c as [[] [] [] [] [] [] [] []]; vm_compute; intros H;
    (discriminate H || reflexivity).
Qed.

Lemma lower_c c : ascii_lower c = "c"%char -> c = "c"%char \/ c = "C"%char.
Proof.
  destruct c as [[] [] [] [] [] [] [] []]; vm_compute; intros H;
    (discriminate H || auto).
Qed.

Lemma lower_s c : ascii_lower c = "s"%char -> c = "s"%char \/ c = "S"%char.
Proof.
  destruct c as [[] [] [] [] [] [] [] []]; vm_compute; intros H;
    (discriminate H || auto).
Qed.

Lemma lower_v c : ascii_lower c = "v"%char -> c = "v"%char \/ c = "V"%char.
Proof.
  destruct c as [[] [] [] [] [] [] [] []]; vm_compute; intros H;
    (discriminate H || auto).
Qed.

Lemma lower_is_csv (e : string) :
  lower e = ".csv" <-> e ∈ csv_suffixes.
Proof.
  split.
  - destruct e as [|c0 [|c1 [|c2 [|c3 [|? ?]]]]]; simpl; try discriminate.
    intros H. injection H as H0 H1 H2 H3.
    apply lower_dot in H0. apply lower_c in H1. apply lower_s in H2.
    apply lower_v in H3. unfold csv_suffixes.
    destruct H1, H2, H3; subst; set_solver.
  - unfold csv_suffixes. intros H.
    repeat (apply elem_of_cons in H; destruct H as [-> | H]; [reflexivity |]).
    by apply elem_of_nil in H.
Qed.

(** The test of line 33 decides [ends_with_csv]. *)
Lemma guard_test_iff (key : string) :
  endswith (lower key) ".csv" = true <-> ends_with_csv key.
Proof.
  rewrite endswith_iff. unfold ends_with_csv. split.
  - intros [p H]. apply lower_split in H as (stem & ext & -> & _ & He).
    exists stem, ext. split; [done |]. by apply lower_is_csv.
  - intros (stem & ext & -> & He). exists (lower stem).
    rewrite lower_app. f_equal. by apply lower_is_csv.
Qed.

Lemma truthy_iff (s : string) : truthy s = true <-> s <> "".
Proof. destruct s; simpl; split; congruence. Qed.

End Strings.

(** ** How the script runs *)

Section Run.

Variables (argv : gmap string string).
Variables (rb rp cb cp key : string).

(** Once the five parameters resolve, the script is its body. *)
Lemma job_resolved (w : World) :
  supplied argv rb rp cb cp key ->
  job argv w = job_body rb rp cb cp key w.
Proof.
  intros (H1 & H2 & H3 & H4 & H5).
  assert (Hin : forall k v, argv !! k = Some v ->
            k ∈ ["RAW_BUCKET"; "RAW_PREFIX"; "CURATED_BUCKET";
                 "CURATED_PREFIX"; "S3_OBJECT_KEY"] ->
            filter (fun kv : string * string =>
                      kv.1 ∈ ["RAW_BUCKET"; "RAW_PREFIX"; "CURATED_BUCKET";
                              "CURATED_PREFIX"; "S3_OBJECT_KEY"]) argv !! k
            = Some v).
  { intros k v Hk Hm. by apply map_lookup_filter_Some_2. }
  unfold job, bind, getResolvedOptions. simpl.
  rewrite H1, H2, H3, H4, H5. simpl.
  unfold getitem, dict_get.
  rewrite (Hin _ _ H1), (Hin _ _ H2), (Hin _ _ H3), (Hin _ _ H4),
    (Hin _ _ H5) by set_solver.
  reflexivity.
Qed.

(** The guard of lines 33 to 35. *)
Lemma job_body_skip (w : World) :
  skips key = true ->
  job_body rb rp cb cp key w
  = (Exited 0, emit (skip_message key) (start_spark w)).
Proof.
  intros H. unfold skips in H. unfold job_body, bind. simpl.
  rewrite H. reflexivity.
Qed.

(** Lines 37 to 55. *)
Lemma job_body_load (w : World) :
  skips key = false ->
  job_body rb rp cb cp key w
  = match csv reader (source_path rb rp key) (start_spark w) with
    | (Returned df, w1) =>
        match parquet (writer (utc_date w) df) (dest_path cb cp) w1 with
        | (Returned _, w2) =>
            (Returned tt,
             emit (success_message (dest_path cb cp) (utc_date w)) w2)
        | (Exited c, w2) => (Exited c, w2)
        | (Raised e, w2) => (Raised e, w2)
        end
    | (Exited c, w1) => (Exited c, w1)
    | (Raised e, w1) => (Raised e, w1)
    end.
Proof.
  intros H. unfold skips in H. unfold job_body, bind. simpl.
  rewrite H. reflexivity.
Qed.

End Run.

(** ** The engine calls *)

Section Engine.

Lemma fit_length (n : nat) (r : Row) : length (fit n r) = n.
Proof.
  unfold fit. rewrite length_take, length_app, length_replicate. lia.
Qed.

(** Whatever a read returns, it was logged, it took time, and it changed
    nothing else. *)
Lemma csv_world r path w o w' :
  csv r path w = (o, w') -> w' = engine_call (EvRead path) w.
Proof.
  unfold csv. intros H. repeat case_match; by simplify_eq.
Qed.

Lemma csv_no_exit r path w c w' : csv r path w <> (Exited c, w').
Proof.
  unfold csv. intros H. repeat case_match; by simplify_eq.
Qed.

Lemma csv_no_objects r path w :
  list_objects w path = [] ->
  csv r path w
  = (Raised (AnalysisException ("Path does not exist: " +:+ path)),
     engine_call (EvRead path) w).
Proof. unfold csv. by intros ->. Qed.

Lemma csv_unreadable r path w uri f :
  In (uri, f) (list_objects w path) -> uri ∈ unreadable w ->
  exists u, csv r path w
            = (Raised (AccessDenied u), engine_call (EvRead path) w).
Proof.
  intros Hin Hu. unfold csv.
  destruct (list_objects w path) as [|[uri0 f0] rest] eqn:E; [done |].
  destruct (List.filter _ _) as [|[u g] l] eqn:F.
  - exfalso.
    assert (Hf : In (uri, f)
              (List.filter
                 (fun o : string * CsvFile =>
                    bool_decide (o.1 ∈ unreadable w))
                 ((uri0, f0) :: rest))).
    { apply filter_In. split; [done |]. by apply bool_decide_eq_true_2. }
    by rewrite F in Hf.
  - by exists u.
Qed.

Lemma csv_well_formed r path w df w' :
  csv r path w = (Returned df, w') -> well_formed df.
Proof.
  unfold csv. intros H.
  destruct (list_objects w path) as [|[uri0 f0] rest]; [done |].
  destruct (List.filter _ _) as [|[u g] l]; [| done].
  injection H as <- _. unfold well_formed. simpl.
  rewrite length_zip_with, length_fmap, length_seq, Nat.min_id.
  constructor.
  - apply Forall_fmap, Forall_forall. intros x _. apply fit_length.
  - apply Forall_fmap, Forall_forall. intros [u g] _.
    apply Forall_fmap, Forall_forall. intros x _. apply fit_length.
Qed.

Lemma parquet_no_exit wr path w c w' : parquet wr path w <> (Exited c, w').
Proof.
  unfold parquet. intros H. repeat case_match; by simplify_eq.
Qed.

(** A refused write was logged and took time, and changed nothing else. *)
Lemma parquet_raised wr path w e w' :
  parquet wr path w = (Raised e, w') -> w' = engine_call (EvWrite path) w.
Proof.
  unfold parquet. intros H. repeat case_match; by simplify_eq.
Qed.

(** A write in append mode that returns has put the new part files after
    the ones the dataset had. *)
Lemma parquet_append df cols path w w' :
  parquet (mk_writer df Append cols) path w = (Returned tt, w') ->
  w' = put_dataset path
         (default [] (datasets w !! path) ++ part_files df cols)
         (engine_call (EvWrite path) w)
  /\ NoDup (PyStr.lower <$> columns df).
Proof.
  unfold parquet. simpl. intros H.
  destruct (bool_decide (NoDup (PyStr.lower <$> columns df))) eqn:Hnd;
    [| done].
  apply bool_decide_eq_true_1 in Hnd. simpl in H.
  repeat case_match; simplify_eq; by split.
Qed.

End Engine.

Section Frame.

(** What a write leaves alone, whatever it returns. *)
Lemma parquet_frame wr path w o w' :
  parquet wr path w = (o, w') ->
  calls w' = calls w ++ [EvWrite path] /\ stdout w' = stdout w /\
  objects w' = objects w /\
  forall p, p <> path -> datasets w' !! p = datasets w !! p.
Proof.
  unfold parquet. intros H.
  repeat case_match; simplify_eq; simpl; repeat split; try done;
    intros p Hp; by rewrite lookup_insert_ne.
Qed.

End Frame.

(** ** The guard *)

(** C1: when [S3_OBJECT_KEY] is not empty and does not end with [.csv]
    (letter case aside), the job issues no read and no write, leaves the
    store as it was, prints the one skip message, which names the key, and
    exits with status 0. *)
Theorem non_csv_key_is_skipped argv rb rp cb cp key w :
  supplied argv rb rp cb cp key ->
  key <> "" -> ~ ends_with_csv key ->
  (job argv w).1 = Exited 0 /\
  exit_status (job argv w).1 = 0%Z /\
  calls (job argv w).2 = calls w /\
  objects (job argv w).2 = objects w /\
  datasets (job argv w).2 = datasets w /\
  stdout (job argv w).2
  = stdout w ++ ["Non-CSV detected (" +:+ key +:+ "); skipping."].
Proof.
  intros Hs Hk Hn.
  assert (G : skips key = true).
  { unfold skips. apply andb_true_intro. split.
    - by apply truthy_iff.
    - apply negb_true_iff, not_true_is_false. by rewrite guard_test_iff. }
  rewrite (job_resolved _ _ _ _ _ _ _ Hs), job_body_skip by done.
  by repeat split.
Qed.

Lemma non_csv_key_is_skipped_witness :
  supplied (sample_argv "drop/file.json") "raw" "in/" "curated" "out/"
    "drop/file.json" /\
  "drop/file.json" <> "" /\
  ~ ends_with_csv "drop/file.json" /\
  (job (sample_argv "drop/file.json") sample_world).1 = Exited 0 /\
  calls (job (sample_argv "drop/file.json") sample_world).2 = [] /\
  stdout (job (sample_argv "drop/file.json") sample_world).2
  = ["Non-CSV detected (drop/file.json); skipping."].
Proof.
  assert (Hs : supplied (sample_argv "drop/file.json") "raw" "in/" "curated"
                 "out/" "drop/file.json").
  { repeat split; reflexivity. }
  assert (Hk : "drop/file.json" <> "") by discriminate.
  assert (Hn : ~ ends_with_csv "drop/file.json").
  { intros H. apply guard_test_iff in H. vm_compute in H. discriminate H. }
  destruct (non_csv_key_is_skipped _ _ _ _ _ _ sample_world Hs Hk Hn)
    as (H1 & _ & H3 & _ & _ & H6).
  split; [exact Hs |]. split; [exact Hk |]. split; [exact Hn |].
  split; [exact H1 |]. split; [exact H3 | exact H6].
Defined.

(** C9: when [S3_OBJECT_KEY] ends with [.csv] in any letter case, the
    guard does not skip: the job is the read of the object, the stamping of
    the frame and the write, the read is issued, and once it returns the
    write is issued as well. *)
Theorem csv_key_in_any_case_is_processed argv rb rp cb cp key w :
  supplied argv rb rp cb cp key ->
  key <> "" -> ends_with_csv key ->
  let src := "s3://" +:+ rb +:+ "/" +:+ key in
  let out := "s3://" +:+ cb +:+ "/" +:+ cp in
  skips key = false /\
  job argv w
  = match csv reader src (start_spark w) with
    | (Returned df, w1) =>
        match parquet (writer (utc_date w) df) out w1 with
        | (Returned _, w2) =>
            (Returned tt, emit (success_message out (utc_date w)) w2)
        | (Exited c, w2) => (Exited c, w2)
        | (Raised e, w2) => (Raised e, w2)
        end
    | (Exited c, w1) => (Exited c, w1)
    | (Raised e, w1) => (Raised e, w1)
    end /\
  (exists rest, calls (job argv w).2 = calls w ++ EvRead src :: rest) /\
  (forall df w1, csv reader src (start_spark w) = (Returned df, w1) ->
     calls (job argv w).2 = calls w ++ [EvRead src; EvWrite out]).
Proof.
  intros Hs Hk He src out.
  assert (G : skips key = false).
  { unfold skips. apply andb_false_intro2, negb_false_iff.
    by apply guard_test_iff. }
  assert (Hsrc : source_path rb rp key = src).
  { unfold source_path. apply truthy_iff in Hk. by rewrite Hk. }
  split; [done |].
  rewrite (job_resolved _ _ _ _ _ _ _ Hs), job_body_load by done.
  rewrite Hsrc. fold out. unfold dest_path. fold out.
  split; [done |].
  destruct (csv reader src (start_spark w)) as [[df | c | e] w1] eqn:R.
  - apply csv_world in R as Hw1.
    destruct (parquet _ out w1) as [[[] | c | e] w2] eqn:P;
      apply parquet_frame in P as (Hc & _); subst w1; simpl in *.
    + split; [exists [EvWrite out] |]; intros; rewrite Hc; simpl;
        by rewrite <- app_assoc.
    + split; [exists [EvWrite out] |]; intros; rewrite Hc; simpl;
        by rewrite <- app_assoc.
    + split; [exists [EvWrite out] |]; intros; rewrite Hc; simpl;
        by rewrite <- app_assoc.
  - by apply csv_no_exit in R.
  - apply csv_world in R as ->. split; [by exists [] | intros; done].
Qed.

Lemma csv_key_in_any_case_is_processed_witness :
  supplied (sample_argv "drop/file.CSV") "raw" "in/" "curated" "out/"
    "drop/file.CSV" /\
  "drop/file.CSV" <> "" /\
  ends_with_csv "drop/file.CSV" /\
  skips "drop/file.CSV" = false /\
  calls (job (sample_argv "drop/file.CSV") sample_world).2
  = [EvRead "s3://raw/drop/file.CSV"; EvWrite "s3://curated/out/"].
Proof.
  assert (Hs : supplied (sample_argv "drop/file.CSV") "raw" "in/" "curated"
                 "out/" "drop/file.CSV").
  { repeat split; reflexivity. }
  assert (Hk : "drop/file.CSV" <> "") by discriminate.
  assert (He : ends_with_csv "drop/file.CSV").
  { apply guard_test_iff. reflexivity. }
  destruct (csv_key_in_any_case_is_processed _ _ _ _ _ _ sample_world
              Hs Hk He) as (H1 & _ & _ & H4).
  split; [exact Hs |]. split; [exact Hk |]. split; [exact He |].
  split; [exact H1 |]. eapply H4. vm_compute. reflexivity.
Defined.

(** ** Argument resolution *)

Section Resolution.

(** A requested parameter that the invocation lacks makes the resolution
    raise. *)
Lemma getResolvedOptions_missing argv options name w :
  In name options -> argv !! name = None ->
  exists missing,
    getResolvedOptions argv options w
    = (Raised (GlueArgumentError missing), w).
Proof.
  intros Hin Hnone. unfold getResolvedOptions.
  destruct (List.filter _ options) as [|o l] eqn:F.
  - exfalso.
    assert (Hf : In name (List.filter
              (fun o => bool_decide (argv !! o = None)) options)).
    { apply filter_In. split; [done |]. by apply bool_decide_eq_true_2. }
    by rewrite F in Hf.
  - by exists o.
Qed.

End Resolution.

(** C4: the code makes [S3_OBJECT_KEY] as mandatory as the other four
    parameters.  An invocation that carries the other four and no
    [S3_OBJECT_KEY] does not proceed in prefix mode: the resolution raises,
    nothing is read, written or printed, and the exit status is not 0. *)
Theorem absent_object_key_fails_resolution argv rb rp cb cp w :
  argv !! "RAW_BUCKET" = Some rb ->
  argv !! "RAW_PREFIX" = Some rp ->
  argv !! "CURATED_BUCKET" = Some cb ->
  argv !! "CURATED_PREFIX" = Some cp ->
  argv !! "S3_OBJECT_KEY" = None ->
  job argv w = (Raised (GlueArgumentError "S3_OBJECT_KEY"), w) /\
  exit_status (job argv w).1 <> 0%Z.
Proof.
  intros H1 H2 H3 H4 H5.
  assert (E : job argv w = (Raised (GlueArgumentError "S3_OBJECT_KEY"), w)).
  { unfold job, bind, getResolvedOptions. simpl.
    by rewrite H1, H2, H3, H4, H5. }
  rewrite E. by split.
Qed.

Lemma absent_object_key_fails_resolution_witness :
  delete "S3_OBJECT_KEY" (sample_argv "") !! "RAW_BUCKET" = Some "raw" /\
  delete "S3_OBJECT_KEY" (sample_argv "") !! "RAW_PREFIX" = Some "in/" /\
  delete "S3_OBJECT_KEY" (sample_argv "") !! "CURATED_BUCKET"
  = Some "curated" /\
  delete "S3_OBJECT_KEY" (sample_argv "") !! "CURATED_PREFIX" = Some "out/" /\
  delete "S3_OBJECT_KEY" (sample_argv "") !! "S3_OBJECT_KEY" = None /\
  job (delete "S3_OBJECT_KEY" (sample_argv "")) sample_world
  = (Raised (GlueArgumentError "S3_OBJECT_KEY"), sample_world) /\
  exit_status (job (delete "S3_OBJECT_KEY" (sample_argv "")) sample_world).1
  <> 0%Z.
Proof.
  do 5 (split; [reflexivity |]).
  apply (absent_object_key_fails_resolution
           (delete "S3_OBJECT_KEY" (sample_argv "")) "raw" "in/" "curated"
           "out/" sample_world); reflexivity.
Defined.

(** The same holds of each of the five parameters: when one is absent the
    resolution raises and the job does nothing. *)
Lemma any_absent_parameter_fails_resolution argv name w :
  name ∈ ["RAW_BUCKET"; "RAW_PREFIX"; "CURATED_BUCKET"; "CURATED_PREFIX";
          "S3_OBJECT_KEY"] ->
  argv !! name = None ->
  exists missing, job argv w = (Raised (GlueArgumentError missing), w).
Proof.
  intros Hin Hnone. apply list_elem_of_In in Hin.
  destruct (getResolvedOptions_missing argv _ name w Hin Hnone) as [m Hm].
  exists m. unfold job, bind. by rewrite Hm.
Qed.

(** ** The stamped frame and its part files *)

#[local] Arguments is_partition_column : simpl never.
#[local] Arguments named_ingest_date : simpl never.
#[local] Arguments resolver : simpl never.

Section Stamp.

Variable d : string.

Lemma existsb_id_fmap {A} (g : A -> bool) (l : list A) :
  existsb id (g <$> l) = existsb g l.
Proof. induction l as [|x l IH]; simpl; [done | by f_equal]. Qed.

Lemma is_partition_column_ingest_date f :
  is_partition_column ["ingest_date"] f = named_ingest_date f.
Proof. unfold is_partition_column. simpl. apply orb_false_r. Qed.

Lemma stamped_replaces df :
  existsb named_ingest_date (schema df) = true ->
  stamped d df
  = mk_df (stamp_field <$> schema df)
      ((fun task : list Row =>
          put (named_ingest_date <$> schema df) d <$> task)
         <$> partitions df).
Proof.
  intros H. unfold stamped, withColumn.
  fold named_ingest_date.
  change (fun f => resolver (field_name f) "ingest_date")
    with named_ingest_date.
  by rewrite existsb_id_fmap, H.
Qed.

Lemma stamped_appends df :
  existsb named_ingest_date (schema df) = false ->
  stamped d df
  = mk_df (schema df ++ [ingest_date_field])
      ((fun task : list Row => (fun r => r ++ [d]) <$> task)
         <$> partitions df).
Proof.
  intros H. unfold stamped, withColumn.
  change (fun f => resolver (field_name f) "ingest_date")
    with named_ingest_date.
  by rewrite existsb_id_fmap, H.
Qed.

(** The cell under [ingest_date] of a stamped row. *)
Lemma cell_put sch (r : Row) :
  existsb named_ingest_date sch = true -> length r = length sch ->
  cell (stamp_field <$> sch) (put (named_ingest_date <$> sch) d r)
    "ingest_date" = Some d.
Proof.
  revert r. induction sch as [|f sch IH]; intros r H L; [done |].
  destruct r as [|c r]; [done |]. simpl in *.
  unfold stamp_field at 1.
  destruct (named_ingest_date f) eqn:E; simpl.
  - done.
  - fold (named_ingest_date f). rewrite E. apply IH; [done | lia].
Qed.

Lemma cell_app sch (r : Row) :
  existsb named_ingest_date sch = false -> length r = length sch ->
  cell (sch ++ [ingest_date_field]) (r ++ [d]) "ingest_date" = Some d.
Proof.
  revert r. induction sch as [|f sch IH]; intros r H L.
  - by destruct r.
  - destruct r as [|c r]; [done |]. simpl in *.
    apply orb_false_iff in H as [E H].
    fold (named_ingest_date f). rewrite E. apply IH; [done | lia].
Qed.

(** The cells under the other columns are the ones that were read. *)
Lemma select_put sch (r : Row) :
  length r = length sch ->
  select ((fun f => negb (is_partition_column ["ingest_date"] f))
            <$> (stamp_field <$> sch))
    (put (named_ingest_date <$> sch) d r)
  = select ((fun f => negb (named_ingest_date f)) <$> sch) r.
Proof.
  revert r. induction sch as [|f sch IH]; intros r L; [done |].
  destruct r as [|c r]; [done |]. simpl in *.
  rewrite is_partition_column_ingest_date. unfold stamp_field at 1.
  destruct (named_ingest_date f) eqn:E; simpl.
  - apply IH. lia.
  - rewrite E. simpl. f_equal. apply IH. lia.
Qed.

Lemma select_app sch (r : Row) :
  length r = length sch ->
  select ((fun f => negb (is_partition_column ["ingest_date"] f))
            <$> (sch ++ [ingest_date_field]))
    (r ++ [d])
  = select ((fun f => negb (named_ingest_date f)) <$> sch) r.
Proof.
  revert r. induction sch as [|f sch IH]; intros r L.
  - by destruct r.
  - destruct r as [|c r]; [done |]. simpl in *.
    rewrite is_partition_column_ingest_date.
    destruct (named_ingest_date f); simpl; [| f_equal]; apply IH; lia.
Qed.

(** The other columns keep their names and types. *)
Lemma filter_stamp sch :
  List.filter (fun f => negb (is_partition_column ["ingest_date"] f))
    (stamp_field <$> sch)
  = List.filter (fun f => negb (named_ingest_date f)) sch.
Proof.
  induction sch as [|f sch IH]; [done |]. simpl.
  rewrite is_partition_column_ingest_date. unfold stamp_field at 1 2.
  destruct (named_ingest_date f) eqn:E; simpl; [done |].
  rewrite E. simpl. by f_equal.
Qed.

Lemma filter_app_fresh sch :
  List.filter (fun f => negb (is_partition_column ["ingest_date"] f))
    (sch ++ [ingest_date_field])
  = List.filter (fun f => negb (named_ingest_date f)) sch.
Proof.
  induction sch as [|f sch IH]; [done |]. simpl.
  rewrite is_partition_column_ingest_date.
  destruct (named_ingest_date f); simpl; [done | by f_equal].
Qed.

(** The partition directory takes its name from the new column. *)
Lemma find_stamp sch :
  existsb named_ingest_date sch = true ->
  List.find (fun f => resolver (field_name f) "ingest_date")
    (stamp_field <$> sch) = Some ingest_date_field.
Proof.
  induction sch as [|f sch IH]; intros H; [done |]. simpl in *.
  unfold stamp_field at 1 2.
  destruct (named_ingest_date f) eqn:E; simpl; [done |].
  fold (named_ingest_date f). rewrite E. by apply IH.
Qed.

Lemma find_app_fresh sch :
  existsb named_ingest_date sch = false ->
  List.find (fun f => resolver (field_name f) "ingest_date")
    (sch ++ [ingest_date_field]) = Some ingest_date_field.
Proof.
  induction sch as [|f sch IH]; intros H; [done |]. simpl in *.
  apply orb_false_iff in H as [E H].
  fold (named_ingest_date f). rewrite E. by apply IH.
Qed.

Lemma every_one k (rows : list Row) : every 1 0 k rows = rows.
Proof.
  revert k. induction rows as [|r rows IH]; intros k; [done |].
  change (every 1 0 k (r :: rows))
    with (if (k mod 1 =? 0)%nat then r :: every 1 0 (S k) rows
          else every 1 0 (S k) rows).
  rewrite Nat.mod_1_r. simpl. by rewrite IH.
Qed.

Lemma repartition_one df :
  repartition 1 df = mk_df (schema df) [collect df].
Proof. unfold repartition. simpl. by rewrite every_one. Qed.

Lemma concat_fmap_fmap {A B} (g : A -> B) (parts : list (list A)) :
  List.concat ((fun task : list A => g <$> task) <$> parts)
  = g <$> List.concat parts.
Proof.
  induction parts as [|x parts IH]; simpl; [done |].
  rewrite fmap_app. f_equal. exact IH.
Qed.

Lemma remove_dups_constant {A B} `{EqDecision B} (g : A -> B) (k : B)
    (l : list A) :
  Forall (fun x => g x = k) l ->
  remove_dups (g <$> l) = match l with [] => [] | _ :: _ => [k] end.
Proof.
  induction 1 as [|x l Hx Hl IH]; [done |]. simpl. rewrite Hx.
  destruct l as [|y l]; [done |].
  destruct (decide_rel elem_of k _) as [_ | Hn]; [exact IH |].
  exfalso. apply Hn. apply Forall_cons in Hl as [Hy _].
  rewrite fmap_cons, Hy. by left.
Qed.

Lemma filter_all {A} (g : A -> bool) (l : list A) :
  Forall (fun x => g x = true) l -> List.filter g l = l.
Proof.
  induction 1 as [|x l Hx Hl IH]; [done |]. simpl. by rewrite Hx, IH.
Qed.

Lemma match_fmap {A B C} (g : A -> B) (l : list A) (X : list C) :
  match g <$> l with [] => [] | _ :: _ => X end
  = match l with [] => [] | _ :: _ => X end.
Proof. by destruct l. Qed.

(** One partition whose rows all go to one directory gives one file, and
    none when it has no rows. *)
Lemma part_files_uniform sch (rows : list Row) cols key :
  Forall (fun r => partition_key sch cols r = key) rows ->
  part_files (mk_df sch [rows]) cols
  = match rows with
    | [] => []
    | _ :: _ =>
        [mk_part
           (zip (omap (fun c => field_name <$>
                    List.find (fun f => resolver (field_name f) c) sch)
                   cols) key)
           (List.filter (fun f => negb (is_partition_column cols f)) sch)
           (select ((fun f => negb (is_partition_column cols f)) <$> sch)
              <$> rows)]
    end.
Proof.
  intros H.
  assert (F : List.filter
                (fun r => bool_decide (partition_key sch cols r = key)) rows
              = rows).
  { apply filter_all. eapply Forall_impl; [exact H |]. intros x Hx.
    simpl in Hx. by apply bool_decide_eq_true_2. }
  unfold part_files. cbn [schema partitions mbind list_bind].
  rewrite (remove_dups_constant _ key rows H).
  destruct rows as [|r rows]; [done |].
  cbn [mbind list_bind app]. by rewrite F.
Qed.

(** What a run hands to the store: nothing for a frame without rows, and
    otherwise one part file in the directory of the date, with the other
    columns and their cells as they were read. *)
Lemma run_output_spec df :
  well_formed df ->
  run_output d df
  = match collect df with
    | [] => []
    | _ :: _ =>
        [mk_part [("ingest_date", d)] (other_columns df)
           (other_cells df <$> collect df)]
    end.
Proof.
  intros Hwf.
  assert (Hrows : Forall (fun r : Row => length r = length (schema df))
                    (collect df)).
  { unfold collect. by apply Forall_concat. }
  unfold run_output. rewrite repartition_one.
  destruct (existsb named_ingest_date (schema df)) eqn:E.
  - rewrite (stamped_replaces df E). unfold collect.
    cbn [schema partitions].
    rewrite concat_fmap_fmap. fold (collect df).
    rewrite (part_files_uniform _ _ _ [d]), match_fmap.
    + destruct (collect df) as [|r rows] eqn:C; [done |].
      rewrite <- C. f_equal. f_equal.
      * cbn [omap list_omap]. by rewrite (find_stamp _ E).
      * apply filter_stamp.
      * rewrite <- list_fmap_compose. apply Forall_fmap_ext.
        rewrite <- C in Hrows.
        eapply Forall_impl; [exact Hrows |]. intros x Hx.
        by apply select_put.
    + apply Forall_fmap. eapply Forall_impl; [exact Hrows |].
      intros x Hx. unfold partition_key.
      cbn [fmap list_fmap compose]. by rewrite cell_put.
  - rewrite (stamped_appends df E). unfold collect.
    cbn [schema partitions].
    rewrite concat_fmap_fmap. fold (collect df).
    rewrite (part_files_uniform _ _ _ [d]), match_fmap.
    + destruct (collect df) as [|r rows] eqn:C; [done |].
      rewrite <- C. f_equal. f_equal.
      * cbn [omap list_omap]. by rewrite (find_app_fresh _ E).
      * apply filter_app_fresh.
      * rewrite <- list_fmap_compose. apply Forall_fmap_ext.
        rewrite <- C in Hrows.
        eapply Forall_impl; [exact Hrows |]. intros x Hx.
        by apply select_app.
    + apply Forall_fmap. eapply Forall_impl; [exact Hrows |].
      intros x Hx. unfold partition_key.
      cbn [fmap list_fmap compose]. by rewrite cell_app.
Qed.

End Stamp.

(** ** The date text *)

Section Dates.

Import PyDatetime.

Lemma digit_val_digit (n : Z) : digit_val (digit n) = Some (n mod 10)%Z.
Proof.
  unfold digit_val, digit.
  pose proof (Z.mod_pos_bound n 10 eq_refl) as B.
  rewrite N_ascii_embedding by lia.
  rewrite Z2N.id by lia.
  replace ((48 <=? 48 + n mod 10)%Z && (48 + n mod 10 <=? 57)%Z) with true.
  - f_equal. lia.
  - symmetry. apply andb_true_intro. split; apply Z.leb_le; lia.
Qed.

Lemma strftime_Ymd (t : datetime) :
  strftime "%Y-%m-%d" t
  = year_text (year t) +:+
    String "-" (String (digit (month t / 10)) (String (digit (month t))
      (String "-" (String (digit (day t / 10)) (String (digit (day t))
        EmptyString))))).
Proof. reflexivity. Qed.

Lemma year_text_four (y : Z) : (1000 <= y)%Z -> year_text y = pad4 y.
Proof.
  intros H. unfold year_text.
  destruct (Z.ltb_spec y 10); [lia |].
  destruct (Z.ltb_spec y 100); [lia |].
  destruct (Z.ltb_spec y 1000); [lia | done].
Qed.

(** From the year 1000 on the text has the shape [YYYY-MM-DD]. *)
Lemma strftime_Ymd_four (t : datetime) :
  (1000 <= year t)%Z ->
  strftime "%Y-%m-%d" t
  = String (digit (year t / 1000)) (String (digit (year t / 100))
      (String (digit (year t / 10)) (String (digit (year t))
        (String "-" (String (digit (month t / 10)) (String (digit (month t))
          (String "-" (String (digit (day t / 10)) (String (digit (day t))
            EmptyString))))))))).
Proof. intros H. by rewrite strftime_Ymd, year_text_four. Qed.

(** For a date Python can hold, from the year 1000 on, the text
    [%Y-%m-%d] has the shape [YYYY-MM-DD] and reads back as that year,
    month and day. *)
Lemma parse_strftime (t : datetime) :
  valid t -> (1000 <= year t)%Z ->
  parse_Ymd (strftime "%Y-%m-%d" t) = Some (year t, month t, day t).
Proof.
  intros (Hy & Hm & Hd) H. rewrite strftime_Ymd_four by done.
  unfold parse_Ymd. rewrite !digit_val_digit. simpl.
  f_equal. f_equal; [f_equal |]; Z.div_mod_to_equations; lia.
Qed.

End Dates.

(** ** Runs that succeed *)

Section Success.

Variables (argv : gmap string string).
Variables (rb rp cb cp key : string).
Hypothesis resolved : supplied argv rb rp cb cp key.

(** A run that returns has passed the guard, read a frame, and appended
    the part files of the stamped frame to the dataset at the
    destination; nothing else of the store has changed. *)
Lemma job_success (w w' : World) :
  job argv w = (Returned tt, w') ->
  skips key = false /\
  exists df,
    csv reader (source_path rb rp key) (start_spark w)
    = (Returned df,
       engine_call (EvRead (source_path rb rp key)) (start_spark w)) /\
    well_formed df /\
    w' = emit (success_message (dest_path cb cp) (utc_date w))
           (put_dataset (dest_path cb cp)
              (default [] (datasets w !! dest_path cb cp)
               ++ run_output (utc_date w) df)
              (engine_call (EvWrite (dest_path cb cp))
                 (engine_call (EvRead (source_path rb rp key))
                    (start_spark w)))).
Proof.
  rewrite (job_resolved _ _ _ _ _ _ _ resolved).
  destruct (skips key) eqn:G.
  { by rewrite job_body_skip. }
  rewrite job_body_load by done. intros H. split; [done |].
  destruct (csv reader _ (start_spark w)) as [[df | c | e] w1] eqn:R;
    [| done | done].
  pose proof (csv_world _ _ _ _ _ R) as ->.
  pose proof (csv_well_formed _ _ _ _ _ R) as Hwf.
  exists df. split; [done |]. split; [done |].
  destruct (parquet _ _ _) as [[[] | c | e] w2] eqn:P; [| done | done].
  apply parquet_append in P as [-> _]. by injection H as <-.
Qed.

(** The dataset at the destination after a run that returns. *)
Lemma job_success_datasets (w w' : World) :
  job argv w = (Returned tt, w') ->
  exists df w1,
    csv reader (source_path rb rp key) (start_spark w) = (Returned df, w1) /\
    well_formed df /\
    objects w' = objects w /\
    unreadable w' = unreadable w /\
    datasets w'
    = <[dest_path cb cp :=
          default [] (datasets w !! dest_path cb cp)
          ++ run_output (utc_date w) df]> (datasets w).
Proof.
  intros H. apply job_success in H as (_ & df & R & Hwf & ->).
  by exists df, (engine_call (EvRead (source_path rb rp key))
                   (start_spark w)).
Qed.

End Success.

(** What a read returns depends on the objects and on which of them refuse
    a read, and on nothing else of the world. *)
Lemma csv_same_objects r path (w v : World) :
  objects w = objects v -> unreadable w = unreadable v ->
  (csv r path w).1 = (csv r path v).1.
Proof.
  intros Ho Hu. unfold csv, list_objects. rewrite Ho, Hu.
  repeat case_match; done.
Qed.

(** ** Locations *)

Section Locations.

(** A path that names an object stands for that object alone. *)
Lemma list_objects_object w path f :
  objects w !! path = Some f -> list_objects w path = [(path, f)].
Proof. unfold list_objects. by intros ->. Qed.

(** Any other path stands for the objects under it. *)
Lemma list_objects_under w path uri f :
  objects w !! path = None ->
  In (uri, f) (list_objects w path) <->
  objects w !! uri = Some f /\ PyStr.startswith uri (as_dir path) = true.
Proof.
  unfold list_objects, under. intros ->.
  rewrite filter_In, <- list_elem_of_In. by rewrite elem_of_map_to_list.
Qed.

(** The frame the reader of lines 39 to 41 returns has one partition for
    each object at the location: the lines of the object after its first,
    at the width of the frame. *)
Lemma csv_partitions path w df w' :
  csv reader path w = (Returned df, w') ->
  partitions df
  = (fun o : string * CsvFile =>
       fit (length (schema df)) <$> more_lines o.2) <$> list_objects w path.
Proof.
  unfold csv. intros H.
  destruct (list_objects w path) as [|[uri0 f0] rest]; [done |].
  destruct (List.filter _ _) as [|[u g] l]; [| done].
  injection H as <- _. cbn [schema partitions].
  change (flag reader "header") with true. cbv iota.
  by rewrite length_zip_with, length_fmap, length_seq, Nat.min_id.
Qed.

End Locations.

(** C5: the job resolves its source to [s3://RAW_BUCKET/S3_OBJECT_KEY]
    when the key is not empty and to [s3://RAW_BUCKET/RAW_PREFIX]
    otherwise, and its destination to
    [s3://CURATED_BUCKET/CURATED_PREFIX].  A run that skips issues no
    call.  A run that does not skip issues the read at the source; when
    the read raises that is its only call, and when the read returns the
    write is issued at the destination, with the frame that was read, and
    decides how the job ends.  The frame holds the records of the object
    at the source path alone when there is one, and otherwise the records
    of every object under the path, and of no other.  A run that returns
    has extended the dataset at the destination, and no dataset at
    another path ever changes. *)
Theorem source_and_destination argv rb rp cb cp key w :
  supplied argv rb rp cb cp key ->
  let src := if decide (key = "") then "s3://" +:+ rb +:+ "/" +:+ rp
             else "s3://" +:+ rb +:+ "/" +:+ key in
  let out := "s3://" +:+ cb +:+ "/" +:+ cp in
  (skips key = true -> calls (job argv w).2 = calls w) /\
  (skips key = false ->
   (forall e w1,
      csv reader src (start_spark w) = (Raised e, w1) ->
      calls (job argv w).2 = calls w ++ [EvRead src]) /\
   (forall df w1,
      csv reader src (start_spark w) = (Returned df, w1) ->
      calls (job argv w).2 = calls w ++ [EvRead src; EvWrite out] /\
      (job argv w).1 = (parquet (writer (utc_date w) df) out w1).1 /\
      (forall f,
         objects w !! src = Some f ->
         partitions df = [fit (length (schema df)) <$> more_lines f]) /\
      (objects w !! src = None ->
       forall rows,
         rows ∈ partitions df <->
         exists uri f,
           objects w !! uri = Some f /\
           PyStr.startswith uri (as_dir src) = true /\
           rows = fit (length (schema df)) <$> more_lines f))) /\
  (forall w',
     job argv w = (Returned tt, w') ->
     exists added,
       datasets w'
       = <[out := default [] (datasets w !! out) ++ added]> (datasets w)) /\
  (forall p, p <> out -> datasets (job argv w).2 !! p = datasets w !! p).
Proof.
  intros Hs src out.
  assert (Hsrc : source_path rb rp key = src).
  { unfold source_path, src.
    destruct (decide (key = "")) as [-> | Hk]; [done |].
    apply truthy_iff in Hk. by rewrite Hk. }
  assert (Hout : dest_path cb cp = out) by reflexivity.
  split; [| split; [| split]].
  - intros G. by rewrite (job_resolved _ _ _ _ _ _ _ Hs), job_body_skip.
  - intros G. rewrite (job_resolved _ _ _ _ _ _ _ Hs), job_body_load by done.
    rewrite Hsrc, Hout. split.
    + intros e w1 R. rewrite R. by apply csv_world in R as ->.
    + intros df w1 R. rewrite R.
      pose proof (csv_partitions _ _ _ _ R) as Hp.
      change (list_objects (start_spark w)) with (list_objects w) in Hp.
      apply csv_world in R as ->.
      split; [| split; [| split]].
      * destruct (parquet _ out _) as [[[] | c | e] w2] eqn:P;
          apply parquet_frame in P as (Hc & _); simpl in *;
          rewrite Hc; simpl; by rewrite <- app_assoc.
      * by destruct (parquet _ out _) as [[[] | c | e] w2].
      * intros f Hf. by rewrite Hp, (list_objects_object _ _ _ Hf).
      * intros Hnone rows. rewrite Hp, list_elem_of_fmap. split.
        -- intros ([uri f] & -> & Hin). apply list_elem_of_In in Hin.
           apply list_objects_under in Hin as [Ho Hu]; [| done].
           by exists uri, f.
        -- intros (uri & f & Ho & Hu & ->). exists (uri, f).
           split; [done |]. apply list_elem_of_In.
           by apply list_objects_under.
  - intros w' H.
    destruct (job_success_datasets _ _ _ _ _ _ Hs _ _ H)
      as (df & w1 & _ & _ & _ & _ & Hd).
    by exists (run_output (utc_date w) df).
  - intros p Hp. rewrite (job_resolved _ _ _ _ _ _ _ Hs).
    destruct (skips key) eqn:G; [by rewrite job_body_skip |].
    rewrite job_body_load by done. rewrite Hsrc, Hout.
    destruct (csv reader src (start_spark w)) as [[df | c | e] w1] eqn:R;
      try (by apply csv_no_exit in R); apply csv_world in R as ->; [| done].
    destruct (parquet _ out _) as [[[] | c | e] w2] eqn:P;
      apply parquet_frame in P as (_ & _ & _ & Hd); simpl in *;
      by rewrite Hd.
Qed.

Lemma source_and_destination_witness :
  supplied (sample_argv "drop/file.CSV") "raw" "in/" "curated" "out/"
    "drop/file.CSV" /\
  skips "drop/file.CSV" = false /\
  csv reader "s3://raw/drop/file.CSV" (start_spark sample_world)
  = (Returned sample_frame,
     engine_call (EvRead "s3://raw/drop/file.CSV")
       (start_spark sample_world)) /\
  calls (job (sample_argv "drop/file.CSV") sample_world).2
  = [EvRead "s3://raw/drop/file.CSV"; EvWrite "s3://curated/out/"] /\
  (job (sample_argv "drop/file.CSV") sample_world).1 = Returned tt /\
  partitions sample_frame = [[["7"; "2020-01-01"]; ["8"; "2020-01-02"]]] /\
  datasets (job (sample_argv "drop/file.CSV") sample_world).2
  = {[ "s3://curated/out/" :=
         [mk_part [("ingest_date", "2026-11-03")]
            [mk_field "id" IntegerType] [["7"]; ["8"]]] ]}.
Proof.
  assert (Hs : supplied (sample_argv "drop/file.CSV") "raw" "in/" "curated"
                 "out/" "drop/file.CSV").
  { repeat split; reflexivity. }
  assert (G : skips "drop/file.CSV" = false) by reflexivity.
  assert (R : csv reader "s3://raw/drop/file.CSV" (start_spark sample_world)
              = (Returned sample_frame,
                 engine_call (EvRead "s3://raw/drop/file.CSV")
                   (start_spark sample_world))).
  { vm_compute. reflexivity. }
  destruct (source_and_destination _ _ _ _ _ _ sample_world Hs)
    as (_ & Hrun & Hret & _).
  destruct (Hrun G) as [_ Hread].
  destruct (Hread _ _ R) as (Hcalls & Hend & Hone & _).
  split; [exact Hs |]. split; [exact G |]. split; [exact R |].
  split; [exact Hcalls |].
  assert (E : (job (sample_argv "drop/file.CSV") sample_world).1
              = Returned tt).
  { rewrite Hend. vm_compute. reflexivity. }
  split; [exact E |].
  split; [exact (Hone _ eq_refl) |].
  destruct (Hret (job (sample_argv "drop/file.CSV") sample_world).2)
    as [added Hd].
  { rewrite <- E. by destruct (job _ _). }
  vm_compute. reflexivity.
Defined.

(** ** Failure of the read *)

(** C7: when the source location matches no object, or an object it
    matches refuses the read, the read raises; the job ends with that very
    exception and a status other than 0; no dataset has changed; and the
    read is the only call the job has issued, so it was neither retried nor
    followed by a write. *)
Theorem failed_read_aborts_the_job argv rb rp cb cp key w :
  supplied argv rb rp cb cp key -> skips key = false ->
  let src := source_path rb rp key in
  (list_objects w src = [] \/
   exists uri f, In (uri, f) (list_objects w src) /\ uri ∈ unreadable w) ->
  exists e,
    (csv reader src (start_spark w)).1 = Raised e /\
    (job argv w).1 = Raised e /\
    exit_status (job argv w).1 <> 0%Z /\
    datasets (job argv w).2 = datasets w /\
    stdout (job argv w).2 = stdout w /\
    calls (job argv w).2 = calls w ++ [EvRead src].
Proof.
  intros Hs G src Hfail.
  assert (R : exists e, csv reader src (start_spark w)
                        = (Raised e, engine_call (EvRead src) (start_spark w))).
  { destruct Hfail as [Hnone | (uri & f & Hin & Hu)].
    - eexists. by apply csv_no_objects.
    - destruct (csv_unreadable reader src (start_spark w) uri f Hin Hu)
        as [u Hr]. by exists (AccessDenied u). }
  destruct R as [e R]. exists e.
  rewrite (job_resolved _ _ _ _ _ _ _ Hs), job_body_load by done.
  fold src. rewrite R. by repeat split.
Qed.

Lemma failed_read_aborts_the_job_witness :
  supplied (<["RAW_PREFIX" := "nothing/"]> (sample_argv "")) "raw" "nothing/"
    "curated" "out/" "" /\
  skips "" = false /\
  list_objects sample_world (source_path "raw" "nothing/" "") = [] /\
  exists e,
    (job (<["RAW_PREFIX" := "nothing/"]> (sample_argv "")) sample_world).1
    = Raised e /\
    calls (job (<["RAW_PREFIX" := "nothing/"]> (sample_argv ""))
             sample_world).2
    = [EvRead "s3://raw/nothing/"].
Proof.
  assert (Hs : supplied (<["RAW_PREFIX" := "nothing/"]> (sample_argv ""))
                 "raw" "nothing/" "curated" "out/" "").
  { repeat split; reflexivity. }
  assert (G : skips "" = false) by reflexivity.
  assert (E : list_objects sample_world (source_path "raw" "nothing/" "") = []).
  { vm_compute. reflexivity. }
  split; [exact Hs |]. split; [exact G |]. split; [exact E |].
  destruct (failed_read_aborts_the_job _ _ _ _ _ _ sample_world Hs G
              (or_introl E)) as (e & _ & H2 & _ & _ & _ & H6).
  exists e. split; [exact H2 | exact H6].
Defined.

(** ** The write *)

(** C6: a run that returns leaves every object as it was, and at every
    path keeps the part files the dataset had, in their order, whatever
    partition directory they lie in: what it adds comes after them. *)
Theorem existing_destination_data_is_kept argv rb rp cb cp key w w' :
  supplied argv rb rp cb cp key ->
  job argv w = (Returned tt, w') ->
  objects w' = objects w /\
  forall path files,
    datasets w !! path = Some files ->
    exists added, datasets w' !! path = Some (files ++ added).
Proof.
  intros Hs H.
  destruct (job_success_datasets _ _ _ _ _ _ Hs _ _ H)
    as (df & w1 & _ & _ & Ho & _ & Hd).
  split; [done |]. intros path files Hp. rewrite Hd.
  destruct (decide (path = dest_path cb cp)) as [-> | Hne].
  - rewrite lookup_insert_eq, Hp. simpl. by eexists.
  - rewrite lookup_insert_ne by done. exists []. by rewrite app_nil_r.
Qed.

Lemma existing_destination_data_is_kept_witness :
  supplied (sample_argv "") "raw" "in/" "curated" "out/" "" /\
  (job (sample_argv "") sample_world_with_data).1 = Returned tt /\
  datasets sample_world_with_data !! "s3://curated/out/"
  = Some [earlier_file] /\
  exists added,
    datasets (job (sample_argv "") sample_world_with_data).2
      !! "s3://curated/out/"
    = Some ([earlier_file] ++ added).
Proof.
  assert (Hs : supplied (sample_argv "") "raw" "in/" "curated" "out/" "").
  { repeat split; reflexivity. }
  assert (H : job (sample_argv "") sample_world_with_data
              = (Returned tt, (job (sample_argv "") sample_world_with_data).2)).
  { vm_compute. reflexivity. }
  assert (Hd : datasets sample_world_with_data !! "s3://curated/out/"
               = Some [earlier_file]) by reflexivity.
  split; [exact Hs |]. split; [vm_compute; reflexivity |].
  split; [exact Hd |].
  destruct (existing_destination_data_is_kept _ _ _ _ _ _ _ _ Hs H)
    as [_ Hkeep].
  exact (Hkeep _ _ Hd).
Defined.

(** ** The ingest date *)

Section IngestDate.

Lemma not_named_not_ingest_date (f : StructField) :
  named_ingest_date f = false -> field_name f <> "ingest_date".
Proof.
  intros H E. unfold named_ingest_date in H. rewrite E in H.
  by vm_compute in H.
Qed.

(** Every file of a run lies in the directory of the date, its rows carry
    that date under [ingest_date], and no other column of the file goes
    by that name. *)
Lemma run_output_records d df :
  well_formed df ->
  forall f r, f ∈ run_output d df -> r ∈ pf_rows f ->
    pf_partition f = [("ingest_date", d)] /\
    ("ingest_date", d) ∈ record_of f r /\
    forall v, ("ingest_date", v) ∈ record_of f r -> v = d.
Proof.
  intros Hwf f r Hf Hr. rewrite run_output_spec in Hf by done.
  destruct (collect df) as [|r0 rows]; [by apply elem_of_nil in Hf |].
  apply list_elem_of_singleton in Hf as ->. simpl in *.
  split; [done |]. unfold record_of. simpl. split.
  - apply elem_of_app. right. by left.
  - intros v Hv. apply elem_of_app in Hv as [Hv | Hv].
    + exfalso. apply elem_of_zip_l in Hv.
      apply list_elem_of_fmap in Hv as (g & Hname & Hg).
      unfold other_columns in Hg. apply list_elem_of_In in Hg.
      apply filter_In in Hg as [_ Hg]. apply negb_true_iff in Hg.
      by apply not_named_not_ingest_date in Hg.
    + apply list_elem_of_singleton in Hv. by injection Hv.
Qed.

End IngestDate.

(** C2: in a run that returns, the part files the run adds to the
    destination all lie in the directory [ingest_date=D], and every row of
    them has [D], and nothing else, under [ingest_date], where [D] is the
    text that [%Y-%m-%d] makes of the UTC clock read when the job started,
    whatever the clock shows by the time the rows are written.  For a
    reading Python can hold, from the year 1000 on, [D] has the shape
    [YYYY-MM-DD] and reads back as the year, month and day of that
    reading. *)
Theorem ingest_date_is_the_start_date argv rb rp cb cp key w w' :
  supplied argv rb rp cb cp key ->
  job argv w = (Returned tt, w') ->
  let start := utc_clock w (instant w) in
  let D := PyDatetime.strftime "%Y-%m-%d" start in
  let out := "s3://" +:+ cb +:+ "/" +:+ cp in
  (PyDatetime.valid start -> (1000 <= PyDatetime.year start)%Z ->
   PyDatetime.parse_Ymd D
   = Some (PyDatetime.year start, PyDatetime.month start,
           PyDatetime.day start)) /\
  exists added,
    datasets w' !! out = Some (default [] (datasets w !! out) ++ added) /\
    forall f r, f ∈ added -> r ∈ pf_rows f ->
      pf_partition f = [("ingest_date", D)] /\
      ("ingest_date", D) ∈ record_of f r /\
      forall v, ("ingest_date", v) ∈ record_of f r -> v = D.
Proof.
  intros Hs H start D out.
  split; [by apply parse_strftime |].
  destruct (job_success_datasets _ _ _ _ _ _ Hs _ _ H)
    as (df & w1 & _ & Hwf & _ & _ & Hd).
  exists (run_output D df). split.
  - rewrite Hd. apply lookup_insert_eq.
  - by apply run_output_records.
Qed.

Lemma ingest_date_is_the_start_date_witness :
  supplied (sample_argv "") "raw" "in/" "curated" "out/" "" /\
  (job (sample_argv "") sample_world).1 = Returned tt /\
  PyDatetime.valid (utc_clock sample_world (instant sample_world)) /\
  (1000 <= PyDatetime.year (utc_clock sample_world (instant sample_world)))%Z
  /\
  PyDatetime.strftime "%Y-%m-%d"
    (utc_clock sample_world (instant sample_world)) = "2026-11-03" /\
  PyDatetime.parse_Ymd "2026-11-03" = Some (2026, 11, 3)%Z /\
  PyDatetime.strftime "%Y-%m-%d"
    (utc_clock (job (sample_argv "") sample_world).2
       (instant (job (sample_argv "") sample_world).2)) = "2026-11-04" /\
  exists added,
    datasets (job (sample_argv "") sample_world).2 !! "s3://curated/out/"
    = Some (default [] (datasets sample_world !! "s3://curated/out/")
            ++ added) /\
    forall f r, f ∈ added -> r ∈ pf_rows f ->
      pf_partition f = [("ingest_date", "2026-11-03")] /\
      ("ingest_date", "2026-11-03") ∈ record_of f r /\
      forall v, ("ingest_date", v) ∈ record_of f r -> v = "2026-11-03".
Proof.
  assert (Hs : supplied (sample_argv "") "raw" "in/" "curated" "out/" "").
  { repeat split; reflexivity. }
  assert (H : job (sample_argv "") sample_world
              = (Returned tt, (job (sample_argv "") sample_world).2)).
  { vm_compute. reflexivity. }
  assert (Hv : PyDatetime.valid
                 (utc_clock sample_world (instant sample_world))).
  { unfold PyDatetime.valid. simpl. lia. }
  assert (Hy : (1000 <= PyDatetime.year
                          (utc_clock sample_world (instant sample_world)))%Z).
  { simpl. lia. }
  split; [exact Hs |]. split; [vm_compute; reflexivity |].
  split; [exact Hv |]. split; [exact Hy |]. split; [reflexivity |].
  destruct (ingest_date_is_the_start_date _ _ _ _ _ _ _ _ Hs H)
    as [Hparse Hrows].
  split; [exact (Hparse Hv Hy) |].
  split; [vm_compute; reflexivity | exact Hrows].
Defined.

(** ** Running twice *)

Section Again.

(** Append mode never refuses a destination for holding data: a write in
    that mode that returned returns again from any world in which the same
    destinations refuse a write, whatever its datasets hold by then. *)
Lemma parquet_append_again df cols path (w w' v : World) :
  parquet (mk_writer df Append cols) path w = (Returned tt, w') ->
  unwritable v = unwritable w ->
  parquet (mk_writer df Append cols) path v
  = (Returned tt,
     put_dataset path (default [] (datasets v !! path) ++ part_files df cols)
       (engine_call (EvWrite path) v)).
Proof.
  unfold parquet. cbn [writer_df writer_partition_by writer_mode].
  intros H Hu. rewrite Hu.
  destruct (negb (bool_decide (NoDup (PyStr.lower <$> columns df))));
    [done |].
  destruct (negb (forallb _ cols)); [done |].
  destruct (negb (bool_decide (cols = [])) && forallb _ (schema df));
    [done |].
  destruct (bool_decide (path ∈ unwritable w)); [done |].
  by destruct (datasets v !! path).
Qed.

Variables (argv : gmap string string) (rb rp cb cp key : string).
Hypothesis resolved : supplied argv rb rp cb cp key.

(** A run that returned is followed, on the same UTC date, by a run that
    returns too: the guard passes again, the read returns the same frame,
    and the write appends the same part files once more. *)
Lemma second_run_returns (w0 w1 : World) :
  job argv w0 = (Returned tt, w1) ->
  utc_date w1 = utc_date w0 ->
  exists df,
    (csv reader (source_path rb rp key) (start_spark w0)).1 = Returned df /\
    (csv reader (source_path rb rp key) (start_spark w1)).1 = Returned df /\
    well_formed df /\
    datasets w1
    = <[dest_path cb cp :=
          default [] (datasets w0 !! dest_path cb cp)
          ++ run_output (utc_date w0) df]> (datasets w0) /\
    job argv w1
    = (Returned tt,
       emit (success_message (dest_path cb cp) (utc_date w0))
         (put_dataset (dest_path cb cp)
            (default [] (datasets w1 !! dest_path cb cp)
             ++ run_output (utc_date w0) df)
            (engine_call (EvWrite (dest_path cb cp))
               (engine_call (EvRead (source_path rb rp key))
                  (start_spark w1))))).
Proof.
  intros H1 Hdate.
  rewrite (job_resolved _ _ _ _ _ _ _ resolved) in H1.
  rewrite (job_resolved _ _ _ _ _ _ _ resolved).
  destruct (skips key) eqn:G.
  { by rewrite job_body_skip in H1. }
  rewrite job_body_load in H1 by done. rewrite job_body_load by done.
  destruct (csv reader _ (start_spark w0)) as [[df | c | e] v0] eqn:R0;
    [| done | done].
  pose proof (csv_world _ _ _ _ _ R0) as ->.
  pose proof (csv_well_formed _ _ _ _ _ R0) as Hwf.
  destruct (parquet _ _ _) as [[[] | c | e] v1] eqn:P0; [| done | done].
  injection H1 as <-.
  pose proof (parquet_append _ _ _ _ _ P0) as [-> _].
  pose proof (csv_same_objects reader (source_path rb rp key)
                (start_spark
                   (emit (success_message (dest_path cb cp) (utc_date w0))
                      (put_dataset (dest_path cb cp)
                         (default [] (datasets w0 !! dest_path cb cp)
                          ++ run_output (utc_date w0) df)
                         (engine_call (EvWrite (dest_path cb cp))
                            (engine_call (EvRead (source_path rb rp key))
                               (start_spark w0))))))
                (start_spark w0) eq_refl eq_refl) as C.
  rewrite R0 in C. simpl in C.
  destruct (csv reader _ (start_spark (emit _ _))) as [o v2] eqn:R1.
  simpl in C. subst o.
  pose proof (csv_world _ _ _ _ _ R1) as ->.
  exists df. split; [done |]. split; [done |]. split; [done |].
  split; [done |].
  rewrite Hdate.
  by rewrite (parquet_append_again _ _ _ _ _ _ P0) by reflexivity.
Qed.

End Again.

(** C8: a run that returns does not prevent the next one.  After a run
    of an invocation has returned, a second run of the same invocation on
    the same UTC date returns too: it reads the same frame, and adds to
    the dataset the very part files the first added: the same directory of
    the date, a copy of every row.  With at least one source row the store
    after the second run differs from the store after the first. *)
Theorem second_run_appends_duplicates argv rb rp cb cp key w0 w1 :
  supplied argv rb rp cb cp key ->
  job argv w0 = (Returned tt, w1) ->
  utc_date w1 = utc_date w0 ->
  let src := source_path rb rp key in
  let out := "s3://" +:+ cb +:+ "/" +:+ cp in
  let before := default [] (datasets w0 !! out) in
  exists w2 df added,
    job argv w1 = (Returned tt, w2) /\
    (csv reader src (start_spark w0)).1 = Returned df /\
    (csv reader src (start_spark w1)).1 = Returned df /\
    datasets w1 !! out = Some (before ++ added) /\
    datasets w2 !! out = Some (before ++ added ++ added) /\
    Forall (fun f => pf_partition f = [("ingest_date", utc_date w0)]) added /\
    List.concat (pf_rows <$> added) = other_cells df <$> collect df /\
    (collect df <> [] -> datasets w2 <> datasets w1).
Proof.
  intros Hs H1 Hdate src out before.
  destruct (second_run_returns _ _ _ _ _ _ Hs _ _ H1 Hdate)
    as (df & R0 & R1 & Hwf & Hd1 & H2).
  fold src in R0, R1. unfold dest_path in Hd1, H2.
  fold out in Hd1, H2. fold before in Hd1.
  assert (L1 : datasets w1 !! out
               = Some (before ++ run_output (utc_date w0) df)).
  { rewrite Hd1. apply lookup_insert_eq. }
  rewrite L1 in H2. simpl in H2.
  eexists _, df, (run_output (utc_date w0) df).
  split; [exact H2 |]. cbn [datasets put_dataset emit].
  assert (L2 : <[out := (before ++ run_output (utc_date w0) df)
                        ++ run_output (utc_date w0) df]> (datasets w1) !! out
               = Some (before ++ run_output (utc_date w0) df
                       ++ run_output (utc_date w0) df)).
  { by rewrite lookup_insert_eq, <- app_assoc. }
  repeat split; try done.
  - rewrite run_output_spec by done.
    destruct (collect df); repeat constructor.
  - rewrite run_output_spec by done.
    destruct (collect df) as [|r rows] eqn:C; [done |].
    simpl. by rewrite app_nil_r.
  - intros Hrows Heq.
    change (datasets (engine_call _ _)) with (datasets w1) in Heq.
    rewrite Heq, L1 in L2.
    injection L2 as L2. apply app_inv_head in L2.
    apply (f_equal length) in L2. rewrite length_app in L2.
    rewrite run_output_spec in L2 by done.
    destruct (collect df); [done | simpl in L2; lia].
Qed.

Lemma second_run_appends_duplicates_witness :
  supplied (sample_argv "") "raw" "in/" "curated" "out/" "" /\
  (job (sample_argv "") steady_world).1 = Returned tt /\
  utc_date (job (sample_argv "") steady_world).2 = utc_date steady_world /\
  (job (sample_argv "") (job (sample_argv "") steady_world).2).1
  = Returned tt /\
  exists added,
    added <> [] /\
    datasets (job (sample_argv "") steady_world).2 !! "s3://curated/out/"
    = Some added /\
    datasets (job (sample_argv "") (job (sample_argv "") steady_world).2).2
      !! "s3://curated/out/"
    = Some (added ++ added).
Proof.
  assert (Hs : supplied (sample_argv "") "raw" "in/" "curated" "out/" "").
  { repeat split; reflexivity. }
  assert (H1 : job (sample_argv "") steady_world
               = (Returned tt, (job (sample_argv "") steady_world).2)).
  { vm_compute. reflexivity. }
  assert (Hd : utc_date (job (sample_argv "") steady_world).2
               = utc_date steady_world).
  { vm_compute. reflexivity. }
  split; [exact Hs |]. split; [vm_compute; reflexivity |].
  split; [exact Hd |].
  destruct (second_run_appends_duplicates _ _ _ _ _ _ _ _ Hs H1 Hd)
    as (w2 & df & added & H2 & R & _ & L1 & L2 & _ & _ & Hne).
  rewrite H2. split; [reflexivity |].
  exists added. split; [| split; [exact L1 | exact L2]].
  intros ->. vm_compute in L1. discriminate L1.
Defined.

(** ** The columns *)

Section Columns.

Lemma fmap_field_name_zip (names : list string) (types : list DataType) :
  length names = length types ->
  field_name <$> zip_with mk_field names types = names.
Proof.
  revert types. induction names as [|n names IH]; intros [|t types] L;
    simpl in *; try done.
  f_equal. apply IH. lia.
Qed.

(** The frame's column names are made of the header line. *)
Lemma csv_columns path w df w' :
  csv reader path w = (Returned df, w') ->
  columns df = make_safe_header (source_header w path).
Proof.
  unfold csv, source_header. intros H.
  destruct (list_objects w path) as [|[uri0 f0] rest]; [done |].
  destruct (List.filter _ _) as [|[u g] l]; [| done].
  injection H as <- _. unfold columns. simpl.
  change (flag reader "header") with true. cbv iota.
  apply fmap_field_name_zip. by rewrite length_fmap, length_seq.
Qed.

Lemma filter_eqb_absent (x : string) (l : list string) :
  x ∉ l -> List.filter (String.eqb x) l = [].
Proof.
  induction l as [|y l IH]; intros H; [done |]. simpl.
  apply not_elem_of_cons in H as [Hxy Hl].
  destruct (String.eqb_spec x y); [done | by apply IH].
Qed.

Lemma filter_eqb_once (x : string) (l : list string) :
  NoDup l -> x ∈ l -> length (List.filter (String.eqb x) l) = 1.
Proof.
  induction 1 as [|y l Hy Hl IH]; intros Hx; [by apply elem_of_nil in Hx |].
  simpl. destruct (String.eqb_spec x y) as [-> | Hne].
  - simpl. by rewrite filter_eqb_absent.
  - apply elem_of_cons in Hx as [-> | Hx]; [done | by apply IH].
Qed.

(** A header line of non-empty names that differ, letter case aside,
    gives its names to the columns as they are. *)
Lemma make_safe_header_clean (line : list string) :
  Forall (fun n => n <> "") line -> NoDup (PyStr.lower <$> line) ->
  make_safe_header line = line.
Proof.
  intros Hne Hnd. unfold make_safe_header. apply list_eq. intros i.
  rewrite list_lookup_imap. destruct (line !! i) as [n|] eqn:E; [| done].
  simpl. f_equal.
  assert (Hn : n ∈ line) by (by eapply list_elem_of_lookup_2).
  rewrite Forall_forall in Hne.
  pose proof (Hne _ Hn) as Ht. apply truthy_iff in Ht. rewrite Ht.
  simpl. rewrite filter_eqb_once; [reflexivity | done |].
  apply list_elem_of_fmap. by exists n.
Qed.

Lemma put_lookup sch (r : Row) d i f :
  length r = length sch -> sch !! i = Some f ->
  put (named_ingest_date <$> sch) d r !! i
  = if named_ingest_date f then Some d else r !! i.
Proof.
  revert r i. induction sch as [|g sch IH]; intros r i L Hi; [done |].
  destruct r as [|c r]; [done |]. simpl in L.
  destruct i as [|i]; simpl in *.
  - injection Hi as ->. by destruct (named_ingest_date f).
  - apply IH; [lia | done].
Qed.

End Columns.

(** C3, as the code has it: in a run that returns, the columns of the
    output other than [ingest_date] are the columns the read made of the
    source header line, less any column named [ingest_date] (letter case
    aside): in the same order, under the same names, with the types the
    read inferred, and with every row's cells as they were read.  When the
    header's names are non-empty and differ, the columns the read made are
    the header's names themselves. *)
Theorem other_columns_are_kept argv rb rp cb cp key w w' :
  supplied argv rb rp cb cp key ->
  job argv w = (Returned tt, w') ->
  let src := source_path rb rp key in
  let out := "s3://" +:+ cb +:+ "/" +:+ cp in
  exists df added,
    (csv reader src (start_spark w)).1 = Returned df /\
    columns df = make_safe_header (source_header w src) /\
    (Forall (fun n => n <> "") (source_header w src) ->
     NoDup (PyStr.lower <$> source_header w src) ->
     columns df = source_header w src) /\
    datasets w' !! out = Some (default [] (datasets w !! out) ++ added) /\
    (forall f, f ∈ added ->
       pf_schema f
       = List.filter
           (fun c => negb (resolver (field_name c) "ingest_date"))
           (schema df)) /\
    List.concat (pf_rows <$> added) = other_cells df <$> collect df.
Proof.
  intros Hs H src out.
  destruct (job_success_datasets _ _ _ _ _ _ Hs _ _ H)
    as (df & w1 & R & Hwf & _ & _ & Hd).
  fold src in R. exists df, (run_output (utc_date w) df).
  pose proof (csv_columns _ _ _ _ R) as Hc.
  change (list_objects (start_spark w)) with (list_objects w) in Hc.
  rewrite R. repeat split; try done.
  - intros Hne Hnd. by rewrite Hc, make_safe_header_clean.
  - rewrite Hd. apply lookup_insert_eq.
  - intros f Hf. rewrite run_output_spec in Hf by done.
    destruct (collect df); [by apply elem_of_nil in Hf |].
    by apply list_elem_of_singleton in Hf as ->.
  - rewrite run_output_spec by done.
    destruct (collect df) as [|r rows] eqn:C; [done |].
    simpl. by rewrite app_nil_r.
Qed.

Lemma other_columns_are_kept_witness :
  supplied (sample_argv "") "raw" "in/" "curated" "out/" "" /\
  (job (sample_argv "") sample_world).1 = Returned tt /\
  source_header sample_world "s3://raw/in/" = ["id"; "name"] /\
  exists added,
    datasets (job (sample_argv "") sample_world).2 !! "s3://curated/out/"
    = Some added /\
    (forall f, f ∈ added ->
       pf_schema f = [mk_field "id" IntegerType; mk_field "name" StringType]) /\
    List.concat (pf_rows <$> added) = [["1"; "ann"]; ["2"; "bob"]].
Proof.
  assert (Hs : supplied (sample_argv "") "raw" "in/" "curated" "out/" "").
  { repeat split; reflexivity. }
  assert (H : job (sample_argv "") sample_world
              = (Returned tt, (job (sample_argv "") sample_world).2)).
  { vm_compute. reflexivity. }
  split; [exact Hs |]. split; [vm_compute; reflexivity |].
  split; [vm_compute; reflexivity |].
  destruct (other_columns_are_kept _ _ _ _ _ _ _ _ Hs H)
    as (df & added & R & _ & _ & Hd & Hsch & Hrows).
  vm_compute in R. injection R as <-.
  exists added. split; [exact Hd |]. split; [exact Hsch | exact Hrows].
Defined.

(** C3, as it is worded, fails when the source header has a column named
    [ingest_date]: the run returns, the header names [id] and
    [ingest_date], and the output's columns other than [ingest_date] are
    [id] alone. *)
Lemma source_ingest_date_column_is_not_kept :
  exists w' f,
    job (sample_argv "drop/file.CSV") sample_world = (Returned tt, w') /\
    datasets w' !! "s3://curated/out/" = Some [f] /\
    source_header sample_world "s3://raw/drop/file.CSV"
    = ["id"; "ingest_date"] /\
    output_columns f = ["id"; "ingest_date"] /\
    ~ (forall c,
         c ∈ output_columns f /\ c <> "ingest_date" <->
         c ∈ source_header sample_world "s3://raw/drop/file.CSV").
Proof.
  eexists _, _. split; [vm_compute; reflexivity |].
  split; [vm_compute; reflexivity |].
  split; [vm_compute; reflexivity |].
  split; [vm_compute; reflexivity |].
  intros H. destruct (H "ingest_date") as [_ H2].
  destruct H2 as [_ Hne]; [| done].
  vm_compute. apply elem_of_cons. right. by left.
Qed.

(** What [withColumn] does to a frame that already has a column named
    [ingest_date]: it adds no column; the columns keep their places, and
    those named [ingest_date] (letter case aside) now go by that name; in
    every row, in order, the cells under them hold the new value and the
    other cells are as they were. *)
Lemma withColumn_replaces (d : string) (df : DataFrame) :
  well_formed df ->
  "ingest_date" ∈ columns df ->
  let df2 := withColumn "ingest_date" (lit d) df in
  columns df2
  = (fun n => if resolver n "ingest_date" then "ingest_date" else n)
      <$> columns df /\
  Forall2
    (fun r r2 : Row =>
       forall i f, schema df !! i = Some f ->
         r2 !! i = if resolver (field_name f) "ingest_date" then Some d
                   else r !! i)
    (collect df) (collect df2) /\
  forall r2, r2 ∈ collect df2 -> cell (schema df2) r2 "ingest_date" = Some d.
Proof.
  intros Hwf Hin df2.
  assert (E : existsb named_ingest_date (schema df) = true).
  { apply existsb_exists. unfold columns in Hin.
    apply list_elem_of_fmap in Hin as (f & Hname & Hf).
    exists f. split; [by apply list_elem_of_In |].
    unfold named_ingest_date. by rewrite <- Hname. }
  assert (Hrows : Forall (fun r : Row => length r = length (schema df))
                    (collect df)).
  { unfold collect. by apply Forall_concat. }
  assert (Hdf2 : df2 = stamped d df) by reflexivity.
  rewrite Hdf2, (stamped_replaces d df E). unfold columns, collect.
  cbn [schema partitions]. rewrite concat_fmap_fmap. fold (collect df).
  split; [| split].
  - rewrite <- !list_fmap_compose. apply list_fmap_ext. intros i f _. simpl.
    unfold stamp_field, named_ingest_date. by destruct (resolver _ _).
  - apply Forall2_fmap_r, Forall_Forall2_diag.
    eapply Forall_impl; [exact Hrows |]. intros r L i f Hi.
    by apply put_lookup.
  - intros r2 Hr2. apply list_elem_of_fmap in Hr2 as (r & -> & Hr).
    rewrite Forall_forall in Hrows. apply cell_put; [done | by apply Hrows].
Qed.

(** C10: when the frame the job has read has a column named
    [ingest_date], the job does not fail at line 44 and does not keep the
    column: what it hands to the writer is the frame in which that column
    holds, in every row, the date text the run computed at its start.  No
    column is added, the other cells are as they were read, and the cells
    that were read under [ingest_date] are gone. *)
Theorem source_ingest_date_column_is_replaced argv rb rp cb cp key w df w1 :
  supplied argv rb rp cb cp key ->
  skips key = false ->
  csv reader (source_path rb rp key) (start_spark w) = (Returned df, w1) ->
  "ingest_date" ∈ columns df ->
  let D := PyDatetime.strftime "%Y-%m-%d" (utc_clock w (instant w)) in
  let df2 := withColumn "ingest_date" (lit D) df in
  let out := "s3://" +:+ cb +:+ "/" +:+ cp in
  job argv w
  = match parquet (mk_writer (repartition 1 df2) Append ["ingest_date"])
            out w1 with
    | (Returned _, w2) => (Returned tt, emit (success_message out D) w2)
    | (Exited c, w2) => (Exited c, w2)
    | (Raised e, w2) => (Raised e, w2)
    end /\
  columns df2
  = (fun n => if resolver n "ingest_date" then "ingest_date" else n)
      <$> columns df /\
  Forall2
    (fun r r2 : Row =>
       forall i f, schema df !! i = Some f ->
         r2 !! i = if resolver (field_name f) "ingest_date" then Some D
                   else r !! i)
    (collect df) (collect df2) /\
  forall r2, r2 ∈ collect df2 -> cell (schema df2) r2 "ingest_date" = Some D.
Proof.
  intros Hs G R Hin D df2 out. split.
  - rewrite (job_resolved _ _ _ _ _ _ _ Hs), job_body_load by done.
    by rewrite R.
  - apply withColumn_replaces; [| done]. by eapply csv_well_formed.
Qed.

Lemma source_ingest_date_column_is_replaced_witness :
  supplied (sample_argv "drop/file.CSV") "raw" "in/" "curated" "out/"
    "drop/file.CSV" /\
  skips "drop/file.CSV" = false /\
  csv reader (source_path "raw" "in/" "drop/file.CSV")
    (start_spark sample_world)
  = (Returned sample_frame,
     engine_call (EvRead "s3://raw/drop/file.CSV")
       (start_spark sample_world)) /\
  "ingest_date" ∈ columns sample_frame /\
  columns (withColumn "ingest_date" (lit "2026-11-03") sample_frame)
  = ["id"; "ingest_date"] /\
  collect (withColumn "ingest_date" (lit "2026-11-03") sample_frame)
  = [["7"; "2026-11-03"]; ["8"; "2026-11-03"]] /\
  forall r2,
    r2 ∈ collect (withColumn "ingest_date" (lit "2026-11-03") sample_frame) ->
    cell (schema (withColumn "ingest_date" (lit "2026-11-03") sample_frame))
      r2 "ingest_date" = Some "2026-11-03".
Proof.
  assert (Hs : supplied (sample_argv "drop/file.CSV") "raw" "in/" "curated"
                 "out/" "drop/file.CSV").
  { repeat split; reflexivity. }
  assert (G : skips "drop/file.CSV" = false) by reflexivity.
  assert (R : csv reader (source_path "raw" "in/" "drop/file.CSV")
                (start_spark sample_world)
              = (Returned sample_frame,
                 engine_call (EvRead "s3://raw/drop/file.CSV")
                   (start_spark sample_world))).
  { vm_compute. reflexivity. }
  assert (Hin : "ingest_date" ∈ columns sample_frame).
  { vm_compute. apply elem_of_cons. right. by left. }
  split; [exact Hs |]. split; [exact G |]. split; [exact R |].
  split; [exact Hin |].
  destruct (source_ingest_date_column_is_replaced _ _ _ _ _ _ sample_world
              _ _ Hs G R Hin) as (_ & Hc & _ & Hcell).
  split; [exact Hc |]. split; [vm_compute; reflexivity | exact Hcell].
Defined.

(** ** The scenarios of the specification, run on the sample world *)

(** Scenario 1: prefix mode over a source with the columns [id] and [name]
    and two rows. *)
Example scenario_prefix_mode :
  (job (sample_argv "") sample_world).1 = Returned tt /\
  datasets (job (sample_argv "") sample_world).2 !! "s3://curated/out/"
  = Some [mk_part [("ingest_date", "2026-11-03")]
            [mk_field "id" IntegerType; mk_field "name" StringType]
            [["1"; "ann"]; ["2"; "bob"]]] /\
  stdout (job (sample_argv "") sample_world).2
  = ["Wrote Parquet to s3://curated/out/ partition=2026-11-03"].
Proof. vm_compute. done. Qed.

(** Scenario 2: a key in capitals is read and written. *)
Example scenario_upper_case_key :
  (job (sample_argv "drop/file.CSV") sample_world).1 = Returned tt /\
  calls (job (sample_argv "drop/file.CSV") sample_world).2
  = [EvRead "s3://raw/drop/file.CSV"; EvWrite "s3://curated/out/"] /\
  datasets (job (sample_argv "drop/file.CSV") sample_world).2
    !! "s3://curated/out/"
  = Some [mk_part [("ingest_date", "2026-11-03")]
            [mk_field "id" IntegerType] [["7"]; ["8"]]].
Proof. vm_compute. done. Qed.

(** Scenario 3: a key that is not a CSV is skipped. *)
Example scenario_json_key :
  job (sample_argv "drop/file.json") sample_world
  = (Exited 0,
     emit "Non-CSV detected (drop/file.json); skipping."
       (start_spark sample_world)).
Proof. vm_compute. done. Qed.

(** Scenario 4: a prefix without objects. *)
Example scenario_empty_prefix :
  (job (<["RAW_PREFIX" := "nothing/"]> (sample_argv "")) sample_world).1
  = Raised (AnalysisException "Path does not exist: s3://raw/nothing/") /\
  datasets (job (<["RAW_PREFIX" := "nothing/"]> (sample_argv ""))
              sample_world).2 = ∅.
Proof. vm_compute. done. Qed.

(** A run on a day of which the destination already holds a file. *)
Example scenario_same_day_partition :
  datasets (job (sample_argv "") sample_world_with_data).2
    !! "s3://curated/out/"
  = Some [earlier_file;
          mk_part [("ingest_date", "2026-11-03")]
            [mk_field "id" IntegerType; mk_field "name" StringType]
            [["1"; "ann"]; ["2"; "bob"]]].
Proof. vm_compute. done. Qed.

(** * Further properties of the script *)

(** ** Every way a run can end *)

Section Outcomes.

Variables (argv : gmap string string).

(** A parameter of the five that is absent makes the resolution raise for
    a parameter that is absent, before anything else happens. *)
Lemma absent_parameter_raises name (w : World) :
  In name ["RAW_BUCKET"; "RAW_PREFIX"; "CURATED_BUCKET"; "CURATED_PREFIX";
           "S3_OBJECT_KEY"] ->
  argv !! name = None ->
  exists missing,
    argv !! missing = None /\
    job argv w = (Raised (GlueArgumentError missing), w).
Proof.
  intros Hin Hnone. unfold job, bind, getResolvedOptions.
  destruct (List.filter _ _) as [|o l] eqn:F.
  - exfalso.
    assert (Hf : In name (List.filter
              (fun o => bool_decide (argv !! o = None))
              ["RAW_BUCKET"; "RAW_PREFIX"; "CURATED_BUCKET";
               "CURATED_PREFIX"; "S3_OBJECT_KEY"])).
    { apply filter_In. split; [done |]. by apply bool_decide_eq_true_2. }
    by rewrite F in Hf.
  - exists o. split; [| done].
    assert (Ho : In o (o :: l)) by (by left). rewrite <- F in Ho.
    apply filter_In in Ho as [_ Ho]. by apply bool_decide_eq_true_1 in Ho.
Qed.

(** Either the five parameters are all there, or the resolution of line 13
    raises and nothing has happened. *)
Lemma job_resolution_cases (w : World) :
  (exists rb rp cb cp key, supplied argv rb rp cb cp key) \/
  (exists missing,
     argv !! missing = None /\
     job argv w = (Raised (GlueArgumentError missing), w)).
Proof.
  destruct (argv !! "RAW_BUCKET") as [rb|] eqn:H1;
    [| right; apply (absent_parameter_raises "RAW_BUCKET");
       [simpl; tauto | exact H1]].
  destruct (argv !! "RAW_PREFIX") as [rp|] eqn:H2;
    [| right; apply (absent_parameter_raises "RAW_PREFIX");
       [simpl; tauto | exact H2]].
  destruct (argv !! "CURATED_BUCKET") as [cb|] eqn:H3;
    [| right; apply (absent_parameter_raises "CURATED_BUCKET");
       [simpl; tauto | exact H3]].
  destruct (argv !! "CURATED_PREFIX") as [cp|] eqn:H4;
    [| right; apply (absent_parameter_raises "CURATED_PREFIX");
       [simpl; tauto | exact H4]].
  destruct (argv !! "S3_OBJECT_KEY") as [key|] eqn:H5;
    [| right; apply (absent_parameter_raises "S3_OBJECT_KEY");
       [simpl; tauto | exact H5]].
  left. by exists rb, rp, cb, cp, key.
Qed.

Variables (rb rp cb cp key : string).
Hypothesis resolved : supplied argv rb rp cb cp key.

(** The four ways a run with resolved parameters ends: the guard skips;
    the read raises; the write raises; the run returns. *)
Lemma job_outcome_cases (w : World) :
  let src := source_path rb rp key in
  let out := dest_path cb cp in
  let w1 := engine_call (EvRead src) (start_spark w) in
  (skips key = true /\
   job argv w = (Exited 0, emit (skip_message key) (start_spark w))) \/
  (skips key = false /\
   exists e, csv reader src (start_spark w) = (Raised e, w1) /\
             job argv w = (Raised e, w1)) \/
  (skips key = false /\
   exists df e,
     csv reader src (start_spark w) = (Returned df, w1) /\
     parquet (writer (utc_date w) df) out w1
     = (Raised e, engine_call (EvWrite out) w1) /\
     job argv w = (Raised e, engine_call (EvWrite out) w1)) \/
  (skips key = false /\
   exists df,
     csv reader src (start_spark w) = (Returned df, w1) /\
     job argv w
     = (Returned tt,
        emit (success_message out (utc_date w))
          (put_dataset out
             (default [] (datasets w !! out) ++ run_output (utc_date w) df)
             (engine_call (EvWrite out) w1)))).
Proof.
  intros src out w1. rewrite (job_resolved _ _ _ _ _ _ _ resolved).
  destruct (skips key) eqn:G.
  { left. split; [done |]. by apply job_body_skip. }
  right. rewrite job_body_load by done. fold src out.
  destruct (csv reader src (start_spark w)) as [[df | c | e] v1] eqn:R.
  - apply csv_world in R as Hv. fold w1 in Hv. subst v1. right.
    destruct (parquet _ out w1) as [[[] | c | e] w2] eqn:P.
    + right. split; [done |]. exists df. split; [done |].
      unfold writer in P. apply parquet_append in P as [-> _].
      reflexivity.
    + by apply parquet_no_exit in P.
    + left. split; [done |]. exists df, e.
      by pose proof (parquet_raised _ _ _ _ _ P) as ->.
  - by apply csv_no_exit in R.
  - apply csv_world in R as Hv. fold w1 in Hv. subst v1. left.
    split; [done |]. by exists e.
Qed.

End Outcomes.

(** X1: what a run with resolved parameters prints is decided by how it
    ends: one line naming the destination and the date when it returns,
    one skip line naming the key when it exits, and nothing when an
    exception escapes. *)
Theorem console_output argv rb rp cb cp key w :
  supplied argv rb rp cb cp key ->
  stdout (job argv w).2
  = stdout w ++
    match (job argv w).1 with
    | Returned _ =>
        ["Wrote Parquet to " +:+ ("s3://" +:+ cb +:+ "/" +:+ cp)
         +:+ " partition="
         +:+ PyDatetime.strftime "%Y-%m-%d" (utc_clock w (instant w))]
    | Exited _ => ["Non-CSV detected (" +:+ key +:+ "); skipping."]
    | Raised _ => []
    end.
Proof.
  intros Hs.
  destruct (job_outcome_cases _ _ _ _ _ _ Hs w)
    as [(_ & ->) | [(_ & e & _ & ->) | [(_ & df & e & _ & _ & ->)
       | (_ & df & _ & ->)]]]; simpl; by rewrite ?app_nil_r.
Qed.

Lemma console_output_witness :
  supplied (sample_argv "") "raw" "in/" "curated" "out/" "" /\
  stdout (job (sample_argv "") sample_world).2
  = ["Wrote Parquet to s3://curated/out/ partition=2026-11-03"] /\
  stdout (job (sample_argv "") sample_world_read_only).2 = [].
Proof.
  assert (Hs : supplied (sample_argv "") "raw" "in/" "curated" "out/" "").
  { repeat split; reflexivity. }
  split; [exact Hs |]. split.
  - rewrite (console_output _ _ _ _ _ _ sample_world Hs).
    vm_compute. reflexivity.
  - rewrite (console_output _ _ _ _ _ _ sample_world_read_only Hs).
    vm_compute. reflexivity.
Defined.

(** X2: the job never touches a source object, and unless the run returns
    it leaves every dataset as it was: a skip, a failed resolution, a
    failed read and a failed write all write nothing. *)
Theorem nothing_written_unless_returned argv w :
  objects (job argv w).2 = objects w /\
  ((job argv w).1 <> Returned tt -> datasets (job argv w).2 = datasets w).
Proof.
  destruct (job_resolution_cases argv w)
    as [(rb & rp & cb & cp & key & Hs) | (m & _ & ->)]; [| done].
  destruct (job_outcome_cases _ _ _ _ _ _ Hs w)
    as [(_ & ->) | [(_ & e & _ & ->) | [(_ & df & e & _ & _ & ->)
       | (_ & df & _ & ->)]]]; simpl; done.
Qed.

Lemma nothing_written_unless_returned_witness :
  (job (sample_argv "") sample_world_read_only).1
  = Raised (AccessDenied "s3://curated/out/") /\
  calls (job (sample_argv "") sample_world_read_only).2
  = [EvRead "s3://raw/in/"; EvWrite "s3://curated/out/"] /\
  datasets (job (sample_argv "") sample_world_read_only).2
  = datasets sample_world_read_only.
Proof.
  split; [vm_compute; reflexivity |]. split; [vm_compute; reflexivity |].
  apply (nothing_written_unless_returned (sample_argv "")
           sample_world_read_only).
  vm_compute. discriminate.
Defined.

(** X3: the guard is the only way out through [sys.exit]: when the job
    exits, the status is 0, the five parameters were all there, and the
    key is not empty and does not end with [.csv] in any letter case. *)
Theorem only_the_guard_exits argv w c :
  (job argv w).1 = Exited c ->
  c = 0%Z /\
  exists rb rp cb cp key,
    supplied argv rb rp cb cp key /\ key <> "" /\ ~ ends_with_csv key.
Proof.
  intros H.
  destruct (job_resolution_cases argv w)
    as [(rb & rp & cb & cp & key & Hs) | (m & _ & E)];
    [| by rewrite E in H].
  destruct (job_outcome_cases _ _ _ _ _ _ Hs w)
    as [(G & E) | [(_ & e & _ & E) | [(_ & df & e & _ & _ & E)
       | (_ & df & _ & E)]]]; rewrite E in H; simpl in H; try done.
  split; [by injection H |]. exists rb, rp, cb, cp, key.
  split; [done |]. unfold skips in G. apply andb_prop in G as [G1 G2].
  split; [by apply truthy_iff |].
  apply negb_true_iff in G2. rewrite <- guard_test_iff. by rewrite G2.
Qed.

Lemma only_the_guard_exits_witness :
  (job (sample_argv "drop/file.json") sample_world).1 = Exited 0 /\
  exists rb rp cb cp key,
    supplied (sample_argv "drop/file.json") rb rp cb cp key /\
    key <> "" /\ ~ ends_with_csv key.
Proof.
  assert (H : (job (sample_argv "drop/file.json") sample_world).1 = Exited 0).
  { vm_compute. reflexivity. }
  split; [exact H |].
  exact (proj2 (only_the_guard_exits _ _ _ H)).
Defined.

(** X4: an exception that escapes the job is the resolution's, and then
    nothing has happened, or it is the one the read raised, or the one the
    write raised after the read returned; the lookups of lines 19 to 22
    never raise. *)
Theorem escaping_exceptions argv w e :
  (job argv w).1 = Raised e ->
  (exists missing,
     e = GlueArgumentError missing /\ argv !! missing = None /\
     (job argv w).2 = w) \/
  (exists rb rp cb cp key,
     supplied argv rb rp cb cp key /\
     ((csv reader (source_path rb rp key) (start_spark w)).1 = Raised e \/
      exists df w1,
        csv reader (source_path rb rp key) (start_spark w)
        = (Returned df, w1) /\
        (parquet (writer (utc_date w) df) (dest_path cb cp) w1).1
        = Raised e)).
Proof.
  intros H.
  destruct (job_resolution_cases argv w)
    as [(rb & rp & cb & cp & key & Hs) | (m & Hnone & E)].
  - right. exists rb, rp, cb, cp, key. split; [done |].
    destruct (job_outcome_cases _ _ _ _ _ _ Hs w)
      as [(_ & E) | [(_ & e' & R & E) | [(_ & df & e' & R & P & E)
         | (_ & df & _ & E)]]]; rewrite E in H; simpl in H; try done;
      injection H as ->.
    + left. by rewrite R.
    + right. eexists _, _. split; [exact R |]. by rewrite P.
  - left. rewrite E in H. injection H as <-. exists m.
    split; [done |]. split; [done | by rewrite E].
Qed.

Lemma escaping_exceptions_witness :
  (job (delete "S3_OBJECT_KEY" (sample_argv "")) sample_world).1
  = Raised (GlueArgumentError "S3_OBJECT_KEY") /\
  exists missing,
    GlueArgumentError "S3_OBJECT_KEY" = GlueArgumentError missing /\
    delete "S3_OBJECT_KEY" (sample_argv "") !! missing = None.
Proof.
  assert (H : (job (delete "S3_OBJECT_KEY" (sample_argv "")) sample_world).1
              = Raised (GlueArgumentError "S3_OBJECT_KEY")).
  { vm_compute. reflexivity. }
  split; [exact H |].
  destruct (escaping_exceptions _ _ _ H)
    as [(m & Hm & Hnone & _) | (rb & rp & cb & cp & key & Hs & _)].
  - by exists m.
  - exfalso. destruct Hs as (_ & _ & _ & _ & H5). vm_compute in H5.
    discriminate H5.
Defined.

(** ** What a run depends on *)

(** X6: with a key, the prefix plays no part: the object is looked up at
    [s3://RAW_BUCKET/S3_OBJECT_KEY], not under [RAW_PREFIX], and two
    invocations that differ in [RAW_PREFIX] alone run alike. *)
Theorem prefix_is_ignored_with_a_key argv argv' rb rp rp' cb cp key w :
  supplied argv rb rp cb cp key ->
  supplied argv' rb rp' cb cp key ->
  key <> "" ->
  job argv w = job argv' w.
Proof.
  intros Hs Hs' Hk.
  rewrite (job_resolved _ _ _ _ _ _ _ Hs), (job_resolved _ _ _ _ _ _ _ Hs').
  destruct key as [|a k]; [done |]. reflexivity.
Qed.

Lemma prefix_is_ignored_with_a_key_witness :
  supplied (sample_argv "drop/file.CSV") "raw" "in/" "curated" "out/"
    "drop/file.CSV" /\
  supplied (<["RAW_PREFIX" := "elsewhere/"]> (sample_argv "drop/file.CSV"))
    "raw" "elsewhere/" "curated" "out/" "drop/file.CSV" /\
  "drop/file.CSV" <> "" /\
  job (sample_argv "drop/file.CSV") sample_world
  = job (<["RAW_PREFIX" := "elsewhere/"]> (sample_argv "drop/file.CSV"))
      sample_world.
Proof.
  assert (Hs : supplied (sample_argv "drop/file.CSV") "raw" "in/" "curated"
                 "out/" "drop/file.CSV").
  { repeat split; reflexivity. }
  assert (Hs' : supplied
                  (<["RAW_PREFIX" := "elsewhere/"]>
                     (sample_argv "drop/file.CSV"))
                  "raw" "elsewhere/" "curated" "out/" "drop/file.CSV").
  { repeat split; reflexivity. }
  assert (Hk : "drop/file.CSV" <> "") by discriminate.
  split; [exact Hs |]. split; [exact Hs' |]. split; [exact Hk |].
  exact (prefix_is_ignored_with_a_key _ _ _ _ _ _ _ _ sample_world Hs Hs' Hk).
Defined.

(** ** The write *)

(** X7: because of [repartition(1)], a run that returns adds one part
    file when the frame it read has a row, and none when it has none; the
    one file holds as many rows as were read. *)
Theorem one_file_per_run argv rb rp cb cp key w w' :
  supplied argv rb rp cb cp key ->
  job argv w = (Returned tt, w') ->
  let src := source_path rb rp key in
  let out := "s3://" +:+ cb +:+ "/" +:+ cp in
  exists df added,
    (csv reader src (start_spark w)).1 = Returned df /\
    datasets w' !! out = Some (default [] (datasets w !! out) ++ added) /\
    length added = (if collect df is [] then 0 else 1) /\
    forall f, f ∈ added -> length (pf_rows f) = length (collect df).
Proof.
  intros Hs H src out.
  destruct (job_success_datasets _ _ _ _ _ _ Hs _ _ H)
    as (df & w1 & R & Hwf & _ & _ & Hd).
  fold src in R. exists df, (run_output (utc_date w) df).
  rewrite R, Hd. split; [done |]. split; [apply lookup_insert_eq |].
  rewrite run_output_spec by done.
  destruct (collect df) as [|r rows] eqn:C; simpl.
  - split; [done |]. intros f Hf. by apply elem_of_nil in Hf.
  - split; [done |]. intros f Hf. apply list_elem_of_singleton in Hf as ->.
    simpl. by rewrite length_fmap.
Qed.

Lemma one_file_per_run_witness :
  supplied (sample_argv "") "raw" "in/" "curated" "out/" "" /\
  (job (sample_argv "") sample_world).1 = Returned tt /\
  exists df added,
    (csv reader "s3://raw/in/" (start_spark sample_world)).1 = Returned df /\
    length (collect df) = 2 /\
    datasets (job (sample_argv "") sample_world).2 !! "s3://curated/out/"
    = Some added /\
    length added = 1 /\
    forall f, f ∈ added -> length (pf_rows f) = 2.
Proof.
  assert (Hs : supplied (sample_argv "") "raw" "in/" "curated" "out/" "").
  { repeat split; reflexivity. }
  assert (H : job (sample_argv "") sample_world
              = (Returned tt, (job (sample_argv "") sample_world).2)).
  { vm_compute. reflexivity. }
  split; [exact Hs |]. split; [vm_compute; reflexivity |].
  destruct (one_file_per_run _ _ _ _ _ _ _ _ Hs H)
    as (df & added & R & Hd & Hlen & Hrows).
  exists df, added. split; [exact R |].
  vm_compute in R. injection R as <-.
  split; [reflexivity |]. split; [exact Hd |].
  split; [exact Hlen | exact Hrows].
Defined.

Section WriteFailure.

(** A destination that refuses the write makes the write raise. *)
Lemma parquet_unwritable wr path w :
  path ∈ unwritable w ->
  exists e, parquet wr path w = (Raised e, engine_call (EvWrite path) w).
Proof.
  intros Hu. unfold parquet.
  destruct (negb (bool_decide (NoDup _))); [by eexists |].
  destruct (negb (forallb _ (writer_partition_by wr))); [by eexists |].
  destruct (_ && _); [by eexists |].
  rewrite bool_decide_eq_true_2 by done. by eexists.
Qed.

(** A write that returns had a column to put in its files. *)
Lemma parquet_returned_columns wr path w w' :
  parquet wr path w = (Returned tt, w') ->
  writer_partition_by wr <> [] ->
  forallb (is_partition_column (writer_partition_by wr))
    (schema (writer_df wr)) = false.
Proof.
  unfold parquet. intros H Hne.
  destruct (forallb _ (schema (writer_df wr))) eqn:F; [| done].
  destruct (bool_decide (writer_partition_by wr = [])) eqn:B;
    [by apply bool_decide_eq_true_1 in B |].
  simpl in H. repeat case_match; simplify_eq.
Qed.

End WriteFailure.

(** X8: a write that is refused aborts the job as a failed read does:
    when the read has returned and the destination refuses the write, the
    exception of the write escapes, the status is not 0, no dataset has
    changed, no line is printed, and the calls were one read and one write. *)
Theorem failed_write_aborts_the_job argv rb rp cb cp key w df w1 :
  supplied argv rb rp cb cp key -> skips key = false ->
  let src := source_path rb rp key in
  let out := "s3://" +:+ cb +:+ "/" +:+ cp in
  csv reader src (start_spark w) = (Returned df, w1) ->
  out ∈ unwritable w ->
  exists e,
    (parquet (writer (utc_date w) df) out w1).1 = Raised e /\
    (job argv w).1 = Raised e /\
    exit_status (job argv w).1 <> 0%Z /\
    datasets (job argv w).2 = datasets w /\
    stdout (job argv w).2 = stdout w /\
    calls (job argv w).2 = calls w ++ [EvRead src; EvWrite out].
Proof.
  intros Hs G src out R Hu.
  pose proof (csv_world _ _ _ _ _ R) as ->.
  destruct (parquet_unwritable (writer (utc_date w) df) out
              (engine_call (EvRead src) (start_spark w)) Hu) as [e P].
  exists e. rewrite (job_resolved _ _ _ _ _ _ _ Hs), job_body_load by done.
  fold src. rewrite R. unfold dest_path. fold out. rewrite P. simpl.
  repeat split; try done. by rewrite <- app_assoc.
Qed.

Lemma failed_write_aborts_the_job_witness :
  supplied (sample_argv "") "raw" "in/" "curated" "out/" "" /\
  skips "" = false /\
  "s3://curated/out/" ∈ unwritable sample_world_read_only /\
  exists e,
    (job (sample_argv "") sample_world_read_only).1 = Raised e /\
    datasets (job (sample_argv "") sample_world_read_only).2
    = datasets sample_world_read_only /\
    calls (job (sample_argv "") sample_world_read_only).2
    = [EvRead "s3://raw/in/"; EvWrite "s3://curated/out/"].
Proof.
  assert (Hs : supplied (sample_argv "") "raw" "in/" "curated" "out/" "").
  { repeat split; reflexivity. }
  assert (G : skips "" = false) by reflexivity.
  assert (Hu : "s3://curated/out/" ∈ unwritable sample_world_read_only).
  { vm_compute. reflexivity. }
  split; [exact Hs |]. split; [exact G |]. split; [exact Hu |].
  destruct (csv reader (source_path "raw" "in/" "")
              (start_spark sample_world_read_only))
    as [[df | c | e] w1] eqn:R;
    [| vm_compute in R; discriminate R | vm_compute in R; discriminate R].
  destruct (failed_write_aborts_the_job _ _ _ _ _ _ _ _ _ Hs G R Hu)
    as (e & _ & H2 & _ & H4 & _ & H6).
  exists e. split; [exact H2 |]. split; [exact H4 | exact H6].
Defined.

(** ** The guard and the key *)

Section LastFour.

Import PyStr.

Lemma string_length_app (a b : string) :
  String.length (a +:+ b) = String.length a + String.length b.
Proof.
  induction a as [|c a IH]; [done |].
  rewrite append_cons. simpl. by rewrite IH.
Qed.

Lemma lower_length (s : string) : String.length (lower s) = String.length s.
Proof. induction s as [|c s IH]; simpl; [done | by rewrite IH]. Qed.

Lemma append_same_tail (a b c d : string) :
  a +:+ b = c +:+ d -> String.length b = String.length d -> b = d.
Proof.
  revert c. induction a as [|x a IH]; intros c E L.
  - rewrite append_nil_l in E. subst b.
    rewrite string_length_app in L. destruct c; [done | simpl in L; lia].
  - destruct c as [|y c].
    + rewrite append_nil_l in E. subst d. rewrite append_cons in L.
      simpl in L. rewrite string_length_app in L. lia.
    + rewrite !append_cons in E. injection E as _ E. by eapply IH.
Qed.

Lemma endswith_same_length (p e suffix : string) :
  String.length e = String.length suffix ->
  endswith (p +:+ e) suffix = String.eqb e suffix.
Proof.
  intros L. destruct (String.eqb_spec e suffix) as [-> | Hne].
  - apply endswith_iff. by exists p.
  - apply not_true_is_false. intros H. apply endswith_iff in H as [x H].
    by apply append_same_tail in H.
Qed.

End LastFour.

(** X12: the guard looks at the last four characters of the key and at
    nothing before them: two keys with the same last four characters are
    both skipped or both processed, so a directory or a stem that
    mentions [.csv] changes nothing. *)
Theorem guard_reads_the_last_four_characters (stem1 stem2 ext : string) :
  String.length ext = 4 ->
  skips (stem1 +:+ ext) = skips (stem2 +:+ ext) /\
  skips (stem1 +:+ ext) = negb (String.eqb (PyStr.lower ext) ".csv").
Proof.
  intros L.
  assert (H : forall stem,
            skips (stem +:+ ext)
            = negb (String.eqb (PyStr.lower ext) ".csv")).
  { intros stem. unfold skips.
    rewrite lower_app, endswith_same_length by (by rewrite lower_length).
    replace (PyStr.truthy (stem +:+ ext)) with true; [done |].
    symmetry. apply truthy_iff. intros E.
    apply (f_equal String.length) in E.
    rewrite string_length_app, L in E. simpl in E. lia. }
  by rewrite !H.
Qed.

Lemma guard_reads_the_last_four_characters_witness :
  String.length ".txt" = 4 /\
  skips ("archive.csv/notes" +:+ ".txt") = true /\
  skips ("notes" +:+ ".txt") = true.
Proof.
  assert (L : String.length ".txt" = 4) by reflexivity.
  split; [exact L |].
  destruct (guard_reads_the_last_four_characters "archive.csv/notes" "notes"
              ".txt" L) as [H1 H2].
  split; [exact H2 |]. rewrite <- H1. exact H2.
Defined.

(** ** The partition name *)

Section PartitionName.

Import PyDatetime.

Lemma ascii_compare_digit (a b : Z) :
  Ascii.compare (digit a) (digit b) = Z.compare (a mod 10) (b mod 10).
Proof.
  unfold Ascii.compare, digit.
  pose proof (Z.mod_pos_bound a 10 eq_refl).
  pose proof (Z.mod_pos_bound b 10 eq_refl).
  rewrite !N_ascii_embedding by lia.
  rewrite Z2N.inj_compare by lia. apply Z.add_compare_mono_l.
Qed.

(** Comparing two numbers below 100, and two below 10000, digit by digit
    from the left is comparing the numbers. *)
Lemma compare_two_digits (a b : Z) (K : comparison) :
  (0 <= a < 100)%Z -> (0 <= b < 100)%Z ->
  match (a / 10 mod 10 ?= b / 10 mod 10)%Z with
  | Eq => match (a mod 10 ?= b mod 10)%Z with
          | Eq => K | Lt => Lt | Gt => Gt
          end
  | Lt => Lt | Gt => Gt
  end
  = match (a ?= b)%Z with Eq => K | Lt => Lt | Gt => Gt end.
Proof.
  intros Ha Hb.
  destruct (Z.compare_spec (a / 10 mod 10) (b / 10 mod 10)) as [E1 | L | G].
  2: { rewrite (proj2 (Z.compare_lt_iff a b)); [done |].
       Z.div_mod_to_equations; lia. }
  2: { rewrite (proj2 (Z.compare_gt_iff a b)); [done |].
       Z.div_mod_to_equations; lia. }
  destruct (Z.compare_spec (a mod 10) (b mod 10)) as [E0 | L | G].
  - rewrite (proj2 (Z.compare_eq_iff a b)); [done |].
    Z.div_mod_to_equations; lia.
  - rewrite (proj2 (Z.compare_lt_iff a b)); [done |].
    Z.div_mod_to_equations; lia.
  - rewrite (proj2 (Z.compare_gt_iff a b)); [done |].
    Z.div_mod_to_equations; lia.
Qed.

Lemma compare_four_digits (a b : Z) (K : comparison) :
  (0 <= a < 10000)%Z -> (0 <= b < 10000)%Z ->
  match (a / 1000 mod 10 ?= b / 1000 mod 10)%Z with
  | Eq =>
      match (a / 100 mod 10 ?= b / 100 mod 10)%Z with
      | Eq =>
          match (a / 10 mod 10 ?= b / 10 mod 10)%Z with
          | Eq => match (a mod 10 ?= b mod 10)%Z with
                  | Eq => K | Lt => Lt | Gt => Gt
                  end
          | Lt => Lt | Gt => Gt
          end
      | Lt => Lt | Gt => Gt
      end
  | Lt => Lt | Gt => Gt
  end
  = match (a ?= b)%Z with Eq => K | Lt => Lt | Gt => Gt end.
Proof.
  intros Ha Hb.
  destruct (Z.compare_spec (a / 1000 mod 10) (b / 1000 mod 10))
    as [E3 | L | G].
  2: { rewrite (proj2 (Z.compare_lt_iff a b)); [done |].
       Z.div_mod_to_equations; lia. }
  2: { rewrite (proj2 (Z.compare_gt_iff a b)); [done |].
       Z.div_mod_to_equations; lia. }
  destruct (Z.compare_spec (a / 100 mod 10) (b / 100 mod 10))
    as [E2 | L | G].
  2: { rewrite (proj2 (Z.compare_lt_iff a b)); [done |].
       Z.div_mod_to_equations; lia. }
  2: { rewrite (proj2 (Z.compare_gt_iff a b)); [done |].
       Z.div_mod_to_equations; lia. }
  destruct (Z.compare_spec (a / 10 mod 10) (b / 10 mod 10)) as [E1 | L | G].
  2: { rewrite (proj2 (Z.compare_lt_iff a b)); [done |].
       Z.div_mod_to_equations; lia. }
  2: { rewrite (proj2 (Z.compare_gt_iff a b)); [done |].
       Z.div_mod_to_equations; lia. }
  destruct (Z.compare_spec (a mod 10) (b mod 10)) as [E0 | L | G].
  - rewrite (proj2 (Z.compare_eq_iff a b)); [done |].
    Z.div_mod_to_equations; lia.
  - rewrite (proj2 (Z.compare_lt_iff a b)); [done |].
    Z.div_mod_to_equations; lia.
  - rewrite (proj2 (Z.compare_gt_iff a b)); [done |].
    Z.div_mod_to_equations; lia.
Qed.

Lemma digit_inj (a b : Z) : digit a = digit b -> (a mod 10 = b mod 10)%Z.
Proof.
  intros E. apply (f_equal digit_val) in E.
  rewrite !digit_val_digit in E. by injection E.
Qed.

(** The year can be read off its text. *)
Lemma year_text_inj (a b : Z) :
  (0 <= a <= 9999)%Z -> (0 <= b <= 9999)%Z ->
  year_text a = year_text b -> a = b.
Proof.
  intros Ha Hb. unfold year_text, pad4, pad2.
  destruct (Z.ltb_spec a 10), (Z.ltb_spec b 10),
    (Z.ltb_spec a 100), (Z.ltb_spec b 100),
    (Z.ltb_spec a 1000), (Z.ltb_spec b 1000);
    intros E; try lia; try discriminate E;
    injection E; intros;
    repeat match goal with
           | H : digit _ = digit _ |- _ => apply digit_inj in H
           end;
    Z.div_mod_to_equations; lia.
Qed.

Lemma append_same_head (a b c d : string) :
  a +:+ b = c +:+ d -> String.length b = String.length d -> a = c.
Proof.
  revert c. induction a as [|x a IH]; intros c E L.
  - rewrite append_nil_l in E. subst b.
    rewrite string_length_app in L. destruct c; [done | simpl in L; lia].
  - destruct c as [|y c].
    + rewrite append_nil_l in E. subst d. rewrite append_cons in L.
      simpl in L. rewrite string_length_app in L. lia.
    + rewrite !append_cons in E. injection E as -> E. f_equal.
      by eapply IH.
Qed.

End PartitionName.

(** X9: the text of line 26 is decided by the UTC calendar date and by
    nothing else of the clock reading: two readings give the same
    [ingest_date] exactly when they agree on year, month and day, whatever
    the time of day. *)
Theorem same_date_same_partition (t1 t2 : PyDatetime.datetime) :
  PyDatetime.valid t1 -> PyDatetime.valid t2 ->
  (PyDatetime.strftime "%Y-%m-%d" t1 = PyDatetime.strftime "%Y-%m-%d" t2 <->
   PyDatetime.year t1 = PyDatetime.year t2 /\
   PyDatetime.month t1 = PyDatetime.month t2 /\
   PyDatetime.day t1 = PyDatetime.day t2).
Proof.
  intros (Hy1 & Hm1 & Hd1) (Hy2 & Hm2 & Hd2). rewrite !strftime_Ymd. split.
  - intros E.
    pose proof (append_same_head _ _ _ _ E eq_refl) as Ey.
    pose proof (append_same_tail _ _ _ _ E eq_refl) as Et.
    apply year_text_inj in Ey; [| lia | lia].
    injection Et as Em1 Em0 Ed1 Ed0.
    apply digit_inj in Em1, Em0, Ed1, Ed0.
    split; [done |]. split; Z.div_mod_to_equations; lia.
  - intros (Ey & Em & Ed). by rewrite Ey, Em, Ed.
Qed.

Lemma same_date_same_partition_witness :
  PyDatetime.valid (PyDatetime.mk_datetime 2026 11 3 0 0 0) /\
  PyDatetime.valid (PyDatetime.mk_datetime 2026 11 3 23 59 59) /\
  PyDatetime.strftime "%Y-%m-%d" (PyDatetime.mk_datetime 2026 11 3 0 0 0)
  = PyDatetime.strftime "%Y-%m-%d"
      (PyDatetime.mk_datetime 2026 11 3 23 59 59).
Proof.
  assert (H1 : PyDatetime.valid (PyDatetime.mk_datetime 2026 11 3 0 0 0)).
  { unfold PyDatetime.valid. simpl. lia. }
  assert (H2 : PyDatetime.valid (PyDatetime.mk_datetime 2026 11 3 23 59 59)).
  { unfold PyDatetime.valid. simpl. lia. }
  split; [exact H1 |]. split; [exact H2 |].
  apply (same_date_same_partition _ _ H1 H2). repeat split.
Defined.

(** X10: from the year 1000 on the partition names sort as the dates
    do: comparing the texts of two readings character by character gives
    the order of their dates in the calendar. *)
Theorem partition_names_sort_by_date (t1 t2 : PyDatetime.datetime) :
  PyDatetime.valid t1 -> PyDatetime.valid t2 ->
  (1000 <= PyDatetime.year t1)%Z -> (1000 <= PyDatetime.year t2)%Z ->
  String.compare (PyDatetime.strftime "%Y-%m-%d" t1)
    (PyDatetime.strftime "%Y-%m-%d" t2)
  = compare_dates t1 t2.
Proof.
  intros (Hy1 & Hm1 & Hd1) (Hy2 & Hm2 & Hd2) Hk1 Hk2.
  rewrite !strftime_Ymd_four by done. cbn [String.compare].
  rewrite !ascii_compare_digit.
  change (Ascii.compare "-" "-") with Eq. cbv iota.
  unfold compare_dates.
  rewrite (compare_four_digits (PyDatetime.year t1) (PyDatetime.year t2))
    by lia.
  destruct (PyDatetime.year t1 ?= PyDatetime.year t2)%Z; [| done | done].
  rewrite (compare_two_digits (PyDatetime.month t1) (PyDatetime.month t2))
    by lia.
  destruct (PyDatetime.month t1 ?= PyDatetime.month t2)%Z; [| done | done].
  rewrite (compare_two_digits (PyDatetime.day t1) (PyDatetime.day t2))
    by lia.
  by destruct (PyDatetime.day t1 ?= PyDatetime.day t2)%Z.
Qed.

Lemma partition_names_sort_by_date_witness :
  PyDatetime.valid (PyDatetime.mk_datetime 2026 9 30 23 0 0) /\
  PyDatetime.valid (PyDatetime.mk_datetime 2026 10 1 1 0 0) /\
  (1000 <= PyDatetime.year (PyDatetime.mk_datetime 2026 9 30 23 0 0))%Z /\
  (1000 <= PyDatetime.year (PyDatetime.mk_datetime 2026 10 1 1 0 0))%Z /\
  String.compare
    (PyDatetime.strftime "%Y-%m-%d" (PyDatetime.mk_datetime 2026 9 30 23 0 0))
    (PyDatetime.strftime "%Y-%m-%d" (PyDatetime.mk_datetime 2026 10 1 1 0 0))
  = Lt.
Proof.
  assert (H1 : PyDatetime.valid (PyDatetime.mk_datetime 2026 9 30 23 0 0)).
  { unfold PyDatetime.valid. simpl. lia. }
  assert (H2 : PyDatetime.valid (PyDatetime.mk_datetime 2026 10 1 1 0 0)).
  { unfold PyDatetime.valid. simpl. lia. }
  assert (K1 : (1000 <= PyDatetime.year
                          (PyDatetime.mk_datetime 2026 9 30 23 0 0))%Z).
  { simpl. lia. }
  assert (K2 : (1000 <= PyDatetime.year
                          (PyDatetime.mk_datetime 2026 10 1 1 0 0))%Z).
  { simpl. lia. }
  split; [exact H1 |]. split; [exact H2 |].
  split; [exact K1 |]. split; [exact K2 |].
  rewrite (partition_names_sort_by_date _ _ H1 H2 K1 K2). reflexivity.
Defined.

(** ** A source that has nothing but the date *)

Section DateOnly.

Lemma all_named_stamped d df :
  forallb named_ingest_date (schema df) = true ->
  forallb (is_partition_column ["ingest_date"])
    (schema (repartition 1 (stamped d df))) = true.
Proof.
  intros H. change (schema (repartition 1 (stamped d df)))
    with (schema (stamped d df)).
  destruct (existsb named_ingest_date (schema df)) eqn:E.
  - rewrite (stamped_replaces d df E). cbn [schema].
    induction (schema df) as [|f sch IH]; [done |].
    cbn [forallb] in H. apply andb_prop in H as [Hf Hs].
    rewrite fmap_cons. cbn [forallb].
    rewrite is_partition_column_ingest_date. unfold stamp_field.
    rewrite Hf. apply andb_true_intro. split; [reflexivity |].
    destruct (existsb named_ingest_date sch) eqn:E'.
    + by apply IH.
    + destruct sch as [|g sch]; [done |].
      cbn [forallb existsb] in Hs, E'.
      apply andb_prop in Hs as [Hg _].
      apply orb_false_iff in E' as [Hg' _]. congruence.
  - rewrite (stamped_appends d df E). cbn [schema].
    rewrite forallb_app. apply andb_true_intro. split; [| reflexivity].
    apply forallb_forall. intros f Hf.
    rewrite is_partition_column_ingest_date.
    rewrite forallb_forall in H. by apply H.
Qed.

End DateOnly.

(** X11: when every column of the frame that was read is named
    [ingest_date], and also when it has no column at all, the stamped
    frame has nothing left to put in a file once the partition column is
    taken out: the write raises, the job ends with a status other than 0,
    and no dataset changes. *)
Theorem source_with_only_the_date_fails argv rb rp cb cp key w df w1 :
  supplied argv rb rp cb cp key -> skips key = false ->
  csv reader (source_path rb rp key) (start_spark w) = (Returned df, w1) ->
  forallb (fun f => resolver (field_name f) "ingest_date") (schema df)
  = true ->
  exists e,
    (job argv w).1 = Raised e /\
    exit_status (job argv w).1 <> 0%Z /\
    datasets (job argv w).2 = datasets w /\
    stdout (job argv w).2 = stdout w.
Proof.
  intros Hs G R Hall.
  rewrite (job_resolved _ _ _ _ _ _ _ Hs), job_body_load by done.
  rewrite R. pose proof (csv_world _ _ _ _ _ R) as ->.
  destruct (parquet _ _ _) as [[[] | c | e] w2] eqn:P.
  - exfalso. apply parquet_returned_columns in P; [| done].
    unfold writer in P. cbn [writer_partition_by writer_df] in P.
    by rewrite all_named_stamped in P.
  - by apply parquet_no_exit in P.
  - apply parquet_raised in P as ->. by exists e.
Qed.

Lemma source_with_only_the_date_fails_witness :
  supplied (sample_argv "") "raw" "in/" "curated" "out/" "" /\
  skips "" = false /\
  (csv reader (source_path "raw" "in/" "")
     (start_spark sample_world_date_only)).1
  = Returned (mk_df [mk_field "ingest_date" StringType] [[["2020-01-01"]]]) /\
  exists e,
    (job (sample_argv "") sample_world_date_only).1 = Raised e /\
    datasets (job (sample_argv "") sample_world_date_only).2
    = datasets sample_world_date_only.
Proof.
  assert (Hs : supplied (sample_argv "") "raw" "in/" "curated" "out/" "").
  { repeat split; reflexivity. }
  assert (G : skips "" = false) by reflexivity.
  split; [exact Hs |]. split; [exact G |].
  split; [vm_compute; reflexivity |].
  destruct (csv reader (source_path "raw" "in/" "")
              (start_spark sample_world_date_only))
    as [[df | c | e] w1] eqn:R;
    [| vm_compute in R; discriminate R | vm_compute in R; discriminate R].
  assert (Hall : forallb (fun f => resolver (field_name f) "ingest_date")
                   (schema df) = true).
  { vm_compute in R. injection R as <- _. reflexivity. }
  destruct (source_with_only_the_date_fails _ _ _ _ _ _ _ _ _ Hs G R Hall)
    as (e & H1 & _ & H3 & _).
  exists e. split; [exact H1 | exact H3].
Defined.

(** X13: the Spark context is started before the guard is reached:
    every run whose parameters resolve has started it, the run that skips
    included, and a run whose resolution fails has not. *)
Theorem spark_starts_before_the_guard argv w :
  (forall rb rp cb cp key,
     supplied argv rb rp cb cp key -> spark_context (job argv w).2 = true) /\
  (forall name,
     name ∈ ["RAW_BUCKET"; "RAW_PREFIX"; "CURATED_BUCKET"; "CURATED_PREFIX";
             "S3_OBJECT_KEY"] ->
     argv !! name = None ->
     spark_context (job argv w).2 = spark_context w).
Proof.
  split.
  - intros rb rp cb cp key Hs.
    destruct (job_outcome_cases _ _ _ _ _ _ Hs w)
      as [(_ & ->) | [(_ & e & _ & ->) | [(_ & df & e & _ & _ & ->)
         | (_ & df & _ & ->)]]]; reflexivity.
  - intros name Hin Hnone.
    destruct (any_absent_parameter_fails_resolution argv name w Hin Hnone)
      as [m ->]. reflexivity.
Qed.

Lemma spark_starts_before_the_guard_witness :
  supplied (sample_argv "drop/file.json") "raw" "in/" "curated" "out/"
    "drop/file.json" /\
  spark_context sample_world = false /\
  (job (sample_argv "drop/file.json") sample_world).1 = Exited 0 /\
  spark_context (job (sample_argv "drop/file.json") sample_world).2 = true.
Proof.
  assert (Hs : supplied (sample_argv "drop/file.json") "raw" "in/" "curated"
                 "out/" "drop/file.json").
  { repeat split; reflexivity. }
  split; [exact Hs |]. split; [reflexivity |].
  split; [vm_compute; reflexivity |].
  exact (proj1 (spark_starts_before_the_guard _ sample_world) _ _ _ _ _ Hs).
Defined.
